(** * The agent lifecycle of agentuniverse/agent/agent.py

    A shallow embedding of the [Agent] base class: Python values, the
    exceptions the lifecycle raises, the mutable [agent_input] dictionary
    (kept in a store, because [pre_parse_input] hands the very object it
    seeded to the subclass hook and then to the planner), and the template
    method [run] with its tool adapter [langchain_run]. *)

From Stdlib Require Import Ascii Floats.SpecFloat.
From stdpp Require Import gmap strings list fin_maps.

Set Warnings "-register-all,-clear-no-such-hyp".
Local Open Scope string_scope.

(** ** Python values *)

(** The values that flow through the lifecycle: what a caller passes as
    keyword arguments, what a configuration file holds and what JSON parsing
    yields.  Dictionaries are keyed by strings; a list or a dictionary held
    inside a value is treated as a value, only [agent_input] is an object in
    the store. *)
Inductive pyval : Type :=
  | PNone
  | PBool (b : bool)
  | PInt (z : Z)
  | PFloat (f : spec_float)
  | PStr (s : string)
  | PList (l : list pyval)
  | PDict (d : gmap string pyval).

Abbreviation dict := (gmap string pyval).

(** [bool(v)]: the truth value tested by [or]. *)
Definition truthy (v : pyval) : bool :=
  match v with
  | PNone => false
  | PBool b => b
  | PInt z => negb (z =? 0)%Z
  | PFloat f => match f with S754_zero _ => false | _ => true end
  | PStr s => match s with EmptyString => false | String _ _ => true end
  | PList l => match l with [] => false | _ :: _ => true end
  | PDict d => negb (bool_decide (d = ∅))
  end.

(** [a or b]: [a] when it is truthy, else [b]. *)
Definition py_or (a b : pyval) : pyval := if truthy a then a else b.

(** [type(v).__name__], as interpreter messages print it. *)
Definition type_name (v : pyval) : string :=
  match v with
  | PNone => "NoneType"
  | PBool _ => "bool"
  | PInt _ => "int"
  | PFloat _ => "float"
  | PStr _ => "str"
  | PList _ => "list"
  | PDict _ => "dict"
  end.

(** ** Exceptions *)

(** The classes that matter here.  [input_check] and [output_check] raise the
    builtin [Exception]; the interpreter raises [TypeError] and
    [AttributeError]; [OtherException] is any other subclass of [Exception]
    (a JSON decode error, a planner failure) and [NonException] a class
    outside it ([KeyboardInterrupt], [SystemExit]), which [except Exception]
    does not catch. *)
Inductive exn_class : Type :=
  | Exception
  | TypeError
  | AttributeError
  | OtherException (name : string)
  | NonException (name : string).

(** An exception object: its class and [str(e)]. *)
Record exn : Type := Raise { exn_cls : exn_class; exn_str : string }.

(** [isinstance(e, Exception)]. *)
Definition isinstance_Exception (e : exn) : bool :=
  match exn_cls e with
  | NonException _ => false
  | _ => true
  end.

Inductive outcome (A : Type) : Type :=
  | Returns (a : A)
  | Raises (e : exn).
Arguments Returns {A} a.
Arguments Raises {A} e.

(** ** The world a call runs in *)

Abbreviation loc := positive.

(** [datetime.now()], as far as [strftime('%Y-%m-%d')] reads it.  A
    [datetime] has [1 <= year <= 9999], [1 <= month <= 12] and
    [1 <= day <= 31]. *)
Record date : Type := Date { year : N; month : N; day : N }.

(** Observable steps: [LOGGER.error], the planner registry lookup and the
    planner invocation (with the [agent_input] object it received). *)
Inductive event : Type :=
  | EvLoggerError (msg : string)
  | EvGetPlanner (name : pyval)
  | EvInvoke (agent_input : loc).

Record world : Type := World {
  heap : gmap loc (gmap string pyval);
  now : date;
  base_info_appname : string;
  trace : list event
}.

(** ** The monad of effectful Python code: state and exceptions *)

Definition M (A : Type) : Type := world → outcome A * world.

Definition ret {A} (a : A) : M A := λ w, (Returns a, w).

Definition bind {A B} (c : M A) (k : A → M B) : M B :=
  λ w, match c w with
       | (Returns a, w') => k a w'
       | (Raises e, w') => (Raises e, w')
       end.

Definition raise {A} (e : exn) : M A := λ w, (Raises e, w).

Definition lift {A} (o : outcome A) : M A := λ w, (o, w).

Declare Scope py_scope.
Delimit Scope py_scope with py.
Notation "x <- c ;; k" := (bind c (λ x, k))
  (at level 100, c at next level, right associativity) : py_scope.
Notation "c ;;; k" := (bind c (λ _, k))
  (at level 100, right associativity) : py_scope.
Local Open Scope py_scope.

Definition emit (e : event) : M unit :=
  λ w, (Returns (), World (heap w) (now w) (base_info_appname w) (trace w ++ [e])).

(** [dict()]: a new, empty dictionary object. *)
Definition new_dict : M loc :=
  λ w, let l := fresh (dom (heap w)) in
       (Returns l, World (<[l := ∅]> (heap w)) (now w) (base_info_appname w) (trace w)).

(** [obj[key] = v] on a dictionary object. *)
Definition setitem (l : loc) (key : string) (v : pyval) : M unit :=
  λ w, (Returns (),
        World (alter (λ d, <[key := v]> d) l (heap w)) (now w)
              (base_info_appname w) (trace w)).

Definition datetime_now : M date := λ w, (Returns (now w), w).

Definition app_configer_base_info_appname : M string :=
  λ w, (Returns (base_info_appname w), w).

(** [LOGGER.error(msg)]. *)
Definition LOGGER_error (msg : string) : M unit := emit (EvLoggerError msg).

(** [v.get(key)]: the method exists on dictionaries only. *)
Definition py_get (v : pyval) (key : string) : outcome pyval :=
  match v with
  | PDict d => Returns (default PNone (d !! key))
  | _ => Raises (Raise AttributeError
                   ("'" ++ type_name v ++ "' object has no attribute 'get'"))
  end.

(** ** [strftime('%Y-%m-%d')] *)

Definition digit (n : N) : ascii := ascii_of_N (48 + n mod 10).

(** [%m] and [%d]: two digits, zero padded. *)
Definition pad2 (n : N) : string :=
  String (digit (n / 10)) (String (digit n) EmptyString).

(** [%Y]: the year in four digits.  A year below 1000 is zero padded here;
    the C library behind [strftime] may print it shorter, which is why
    [valid_date] asks for four digits. *)
Definition pad4 (n : N) : string :=
  String (digit (n / 1000)) (String (digit (n / 100)) (pad2 n)).

Definition strftime_Ymd (d : date) : string :=
  pad4 (year d) ++ "-" ++ pad2 (month d) ++ "-" ++ pad2 (day d).

(** The value a decimal digit character stands for. *)
Definition digit_value (c : ascii) : option N :=
  let n := N_of_ascii c in
  if decide (48 ≤ n ∧ n ≤ 57)%N then Some (n - 48)%N else None.

(** Reading a string back as a YYYY-MM-DD date: ten characters, digits
    around two hyphens. *)
Definition parse_Ymd (s : string) : option date :=
  match s with
  | String y1 (String y2 (String y3 (String y4 (String "-"%char
      (String m1 (String m2 (String "-"%char (String d1 (String d2 EmptyString))))))))) =>
      y1 ← digit_value y1; y2 ← digit_value y2; y3 ← digit_value y3;
      y4 ← digit_value y4; m1 ← digit_value m1; m2 ← digit_value m2;
      d1 ← digit_value d1; d2 ← digit_value d2;
      Some (Date (1000 * y1 + 100 * y2 + 10 * y3 + y4) (10 * m1 + m2) (10 * d1 + d2))
  | _ => None
  end.

Definition valid_date (d : date) : Prop :=
  (1000 ≤ year d ≤ 9999 ∧ 1 ≤ month d ≤ 12 ∧ 1 ≤ day d ≤ 31)%N.

(** ** [str.lower()] on ASCII text *)

Definition lower_ascii (c : ascii) : ascii :=
  let n := N_of_ascii c in
  if decide (65 ≤ n ∧ n ≤ 90)%N then ascii_of_N (n + 32) else c.

Fixpoint lower (s : string) : string :=
  match s with
  | EmptyString => EmptyString
  | String c s' => String (lower_ascii c) (lower s')
  end.

(** ** The data model *)

(** Modelled from the spec: [InputObject] (agentuniverse/agent/input_object.py
    is not part of the sources).  "A mapping from string keys to arbitrary
    values, constructed once per invocation from caller-supplied keyword
    arguments; read-only accessor [get_data(key)] returning the value or an
    absent indicator". *)
Record InputObject : Type := mkInputObject { in_params : gmap string pyval }.

Definition InputObject_get_data (io : InputObject) (key : string) : pyval :=
  default PNone (in_params io !! key).

(** Modelled from the spec: [OutputObject] (agentuniverse/agent/output_object.py
    is not part of the sources).  "A mapping from string keys to values,
    wrapping the final parsed result; read-only accessor [get_data(key)]".  It
    holds whatever it was constructed from; [get_data] is the [get] of that
    object. *)
Record OutputObject : Type := mkOutputObject { out_params : pyval }.

Definition OutputObject_get_data (oo : OutputObject) (key : string) : outcome pyval :=
  py_get (out_params oo) key.

(** Modelled from the spec: [AgentModel] (agentuniverse/agent/agent_model.py is
    not part of the sources).  "Static descriptor of an agent: identity/info,
    profile, plan, memory config, action config", each an [Optional[dict]]
    as [initialize_by_component_configer] annotates them. *)
Record AgentModel : Type := mkAgentModel {
  info : option (gmap string pyval);
  profile : option (gmap string pyval);
  plan : option (gmap string pyval);
  memory : option (gmap string pyval);
  action : option (gmap string pyval)
}.

(** [m.get(key)] on an [Optional[dict]] attribute. *)
Definition optional_dict_get (m : option (gmap string pyval)) (key : string) : outcome pyval :=
  match m with
  | Some d => py_get (PDict d) key
  | None => py_get PNone key
  end.

(** A planner: [invoke(agent_model, agent_input, input_object)].  It receives
    the [agent_input] object itself and may do anything. *)
Record Planner : Type := mkPlanner {
  invoke : option AgentModel → loc → InputObject → M pyval
}.

(** What [parse_input] hands back: a dictionary object of the store (the
    [agent_input] it was given, say) or a value built afresh. *)
Inductive returned : Type :=
  | RetObject (l : loc)
  | RetValue (v : pyval).

(** An agent: the [agent_model] attribute ([None] until initialised) and the
    four abstract methods a concrete subclass supplies.  [parse_input]
    receives the [agent_input] object and may mutate it. *)
Record Agent : Type := mkAgent {
  agent_model : option AgentModel;
  input_keys : list string;
  output_keys : list string;
  parse_input : InputObject → loc → M returned;
  parse_result : pyval → M pyval
}.

(** [self.agent_model.<attr>]: an [AttributeError] while [agent_model] is
    [None]. *)
Definition agent_model_attr {A} (self : Agent) (attr : string) (proj : AgentModel → A) : outcome A :=
  match agent_model self with
  | Some am => Returns (proj am)
  | None => Raises (Raise AttributeError
                      ("'NoneType' object has no attribute '" ++ attr ++ "'"))
  end.

(** ** The lifecycle *)

(** Why the interpreter refuses the call
    [self.run( **parse_result, callbacks=callbacks, **kwargs)]: the object
    after the first [**] is no mapping; it has a key [callbacks] of its
    own; a key of [kwargs] was given already; or, once the keyword
    arguments are put together, one of them is [self], the parameter the
    bound method has filled. *)
Inductive call_error : Type :=
  | NotAMapping (v : pyval)
  | RepeatedCallbacks
  | RepeatedKeyword
  | RepeatedSelf.

Section Lifecycle.

(** [ComponentEnum.AGENT.value], set by [__init__]; the enumeration
    (agentuniverse/base/component/component_enum.py) is not part of the
    sources. *)
Variable AGENT : string.

(** [PlannerManager().get_instance_obj(name)]: the planner registry, not
    part of the sources; it may fail, and may find nothing. *)
Variable get_instance_obj : pyval → M (option Planner).

(** [parse_json_markdown] of langchain_core. *)
Variable parse_json_markdown : string → outcome pyval.

(** [str(e)] of the [TypeError] the interpreter raises for a refused call.
    The text carries the qualified name of [run] and, for a repeated
    keyword, the first repeated key in iteration order; its wording
    depends on the interpreter. *)
Variable call_error_text : call_error → string.

(** [str(v)] inside an f-string for values other than strings, [None] and
    booleans: the interpreter's [repr] of numbers and containers. *)
Variable repr_builtin : pyval → string.

Definition py_str (v : pyval) : string :=
  match v with
  | PStr s => s
  | PNone => "None"
  | PBool true => "True"
  | PBool false => "False"
  | _ => repr_builtin v
  end.

(** [input_check]: the first key of [input_keys()] that [kwargs] lacks
    raises. *)
Fixpoint input_check_keys (keys : list string) (kwargs : gmap string pyval) : M unit :=
  match keys with
  | [] => ret ()
  | key :: keys' =>
      if decide (key ∈ dom kwargs)
      then input_check_keys keys' kwargs
      else raise (Raise Exception ("Input must have key: " ++ key ++ "."))
  end.

Definition input_check (self : Agent) (kwargs : gmap string pyval) : M unit :=
  input_check_keys (input_keys self) kwargs.

(** [output_check]: the result must be a [dict] holding every key of
    [output_keys()]. *)
Fixpoint output_check_keys (keys : list string) (kwargs : gmap string pyval) : M unit :=
  match keys with
  | [] => ret ()
  | key :: keys' =>
      if decide (key ∈ dom kwargs)
      then output_check_keys keys' kwargs
      else raise (Raise Exception ("Output must have key: " ++ key ++ "."))
  end.

Definition output_check (self : Agent) (kwargs : pyval) : M unit :=
  match kwargs with
  | PDict d => output_check_keys (output_keys self) d
  | _ => raise (Raise Exception "Output type must be dict.")
  end.

Definition pre_parse_input (self : Agent) (input_object : InputObject) : M loc :=
  agent_input <- new_dict ;;
  setitem agent_input "chat_history"
    (py_or (InputObject_get_data input_object "chat_history") (PStr "")) ;;;
  setitem agent_input "background"
    (py_or (InputObject_get_data input_object "background") (PStr "")) ;;;
  setitem agent_input "image_urls"
    (py_or (InputObject_get_data input_object "image_urls") (PList [])) ;;;
  today <- datetime_now ;;
  setitem agent_input "date" (PStr (strftime_Ymd today)) ;;;
  parse_input self input_object agent_input ;;;
  ret agent_input.

Definition execute (self : Agent) (input_object : InputObject) (agent_input : loc) : M pyval :=
  plan_ <- lift (agent_model_attr self "plan" plan) ;;
  planner_cfg <- lift (optional_dict_get plan_ "planner") ;;
  name <- lift (py_get planner_cfg "name") ;;
  emit (EvGetPlanner name) ;;;
  planner_base <- get_instance_obj name ;;
  match planner_base with
  | None => raise (Raise AttributeError "'NoneType' object has no attribute 'invoke'")
  | Some p =>
      emit (EvInvoke agent_input) ;;;
      invoke p (agent_model self) agent_input input_object
  end.

Definition run (self : Agent) (kwargs : gmap string pyval) : M OutputObject :=
  input_check self kwargs ;;;
  let input_object := mkInputObject kwargs in
  agent_input <- pre_parse_input self input_object ;;
  planner_result <- execute self input_object agent_input ;;
  agent_result <- parse_result self planner_result ;;
  output_check self agent_result ;;;
  ret (mkOutputObject agent_result).

Definition get_instance_code (self : Agent) : M string :=
  appname <- app_configer_base_info_appname ;;
  info_ <- lift (agent_model_attr self "info" info) ;;
  name <- lift (optional_dict_get info_ "name") ;;
  ret (appname ++ "." ++ lower AGENT ++ "." ++ py_str name).

(** The keyword arguments of [self.run( **parse_result, callbacks=callbacks,
    **kwargs)], put together from left to right: [parse_result] must be a
    mapping, no key may be given twice, and none may be [self], which the
    bound method supplies. *)
Definition call_kwargs (parse_result callbacks : pyval) (kwargs : gmap string pyval)
    : outcome (gmap string pyval) :=
  match parse_result with
  | PDict d =>
      if decide ("callbacks" ∈ dom d)
      then Raises (Raise TypeError (call_error_text RepeatedCallbacks))
      else
        let named := <["callbacks" := callbacks]> d in
        if decide (named ##ₘ kwargs)
        then
          if decide ("self" ∈ dom (named ∪ kwargs))
          then Raises (Raise TypeError (call_error_text RepeatedSelf))
          else Returns (named ∪ kwargs)
        else Raises (Raise TypeError (call_error_text RepeatedKeyword))
  | _ => Raises (Raise TypeError (call_error_text (NotAMapping parse_result)))
  end.

(** The loop [for key in self.output_keys(): result_dict[key] =
    output_object.get_data(key)]. *)
Fixpoint collect_output (keys : list string) (output_object : OutputObject)
    (result_dict : gmap string pyval) : M (gmap string pyval) :=
  match keys with
  | [] => ret result_dict
  | key :: keys' =>
      v <- lift (OutputObject_get_data output_object key) ;;
      collect_output keys' output_object (<[key := v]> result_dict)
  end.

Definition parse_error_message (e : exn) : string :=
  "langchain run parse_json_markdown error,input(parse_result) error("
    ++ exn_str e ++ ")".

Definition parse_error_reply : string :=
  "Error , Your Action Input is not a valid JSON string".

Definition langchain_run (self : Agent) (input : string) (callbacks : pyval)
    (kwargs : gmap string pyval) : M pyval :=
  match parse_json_markdown input with
  | Raises e =>
      if isinstance_Exception e
      then LOGGER_error (parse_error_message e) ;;; ret (PStr parse_error_reply)
      else raise e
  | Returns parse_result =>
      kw <- lift (call_kwargs parse_result callbacks kwargs) ;;
      output_object <- run self kw ;;
      result_dict <- collect_output (output_keys self) output_object ∅ ;;
      ret (PDict result_dict)
  end.

End Lifecycle.

(** ** Construction and the tool factory *)

(** Modelled from the spec: [AgentConfiger]
    (agentuniverse/base/config/component_configer/configers/agent_configer.py
    is not part of the sources).  "A configuration descriptor exposing
    [info], [profile], [plan], [memory], [action] (each a loosely-typed
    mapping); consumed once at initialization". *)
Record AgentConfiger : Type := mkAgentConfiger {
  cfg_info : option (gmap string pyval);
  cfg_profile : option (gmap string pyval);
  cfg_plan : option (gmap string pyval);
  cfg_memory : option (gmap string pyval);
  cfg_action : option (gmap string pyval)
}.

Definition double_quote : string := String (ascii_of_N 34) EmptyString.

Definition newline : string := String (ascii_of_N 10) EmptyString.

(** [v + s] for a string [s]: concatenation when [v] is a string, a
    [TypeError] otherwise. *)
Definition py_add_str (v : pyval) (s : string) : outcome string :=
  match v with
  | PStr d => Returns (d ++ s)
  | PList _ =>
      Raises (Raise TypeError
                ("can only concatenate list (not " ++ double_quote ++ "str"
                   ++ double_quote ++ ") to list"))
  | _ =>
      Raises (Raise TypeError
                ("unsupported operand type(s) for +: '" ++ type_name v ++ "' and 'str'"))
  end.

(** [d.setdefault(key, v)] on a dictionary of strings kept in insertion
    order, as [json.dumps] will print it. *)
Definition setdefault (key v : string) (d : list (string * string)) : list (string * string) :=
  if decide (key ∈ d.*1) then d else d ++ [(key, v)].

(** The loop [for key in self.input_keys(): format_dict.setdefault(key,
    "input val")]. *)
Fixpoint format_dict_loop (keys : list string) (format_dict : list (string * string))
    : list (string * string) :=
  match keys with
  | [] => format_dict
  | key :: keys' => format_dict_loop keys' (setdefault key "input val" format_dict)
  end.

Section Construction.

Variable get_instance_obj : pyval → M (option Planner).
Variable parse_json_markdown : string → outcome pyval.
Variable call_error_text : call_error → string.
Variable repr_builtin : pyval → string.

(** [component_configer.load()], annotated [Optional[AgentConfiger]]: it
    reads the configuration and may fail. *)
Variable load : AgentConfiger → M (option AgentConfiger).

(** [json.dumps] on a dictionary of strings. *)
Variable json_dumps : list (string * string) → string.

(** [Tool(name=..., func=..., description=...)] of langchain: the tool type
    and its constructor, which may reject what it is given. *)
Variable tool : Type.
Variable Tool : pyval → (string → pyval → gmap string pyval → M pyval) → string → M tool.

(** [self.agent_model = agent_model; return self]: the agent with its model
    replaced. *)
Definition initialize_by_component_configer (self : Agent)
    (component_configer : AgentConfiger) : M Agent :=
  agent_config <- load component_configer ;;
  match agent_config with
  | None => raise (Raise AttributeError "'NoneType' object has no attribute 'info'")
  | Some c =>
      let agent_model_ :=
        mkAgentModel (cfg_info c) (cfg_profile c) (cfg_plan c) (cfg_memory c) (cfg_action c) in
      ret (mkAgent (Some agent_model_) (input_keys self) (output_keys self)
                   (parse_input self) (parse_result self))
  end.

(** The f-string of [as_langchain_tool]; [{self.input_keys()}] prints the
    list of keys. *)
Definition args_description (self : Agent) (format_str : string) : string :=
  newline
  ++ "        to use this tool,your input must be a json string,must contain all keys of "
  ++ py_str repr_builtin (PList (PStr <$> input_keys self)) ++ "," ++ newline
  ++ "        and the value of the key must be a json string,the format of the json string is as follows:"
  ++ newline
  ++ "        ```" ++ format_str ++ "```" ++ newline
  ++ "        ".

Definition as_langchain_tool (self : Agent) : M tool :=
  let format_dict := format_dict_loop (input_keys self) [] in
  let format_str := json_dumps format_dict in
  let args_description_ := args_description self format_str in
  info_ <- lift (agent_model_attr self "info" info) ;;
  name <- lift (optional_dict_get info_ "name") ;;
  info' <- lift (agent_model_attr self "info" info) ;;
  description <- lift (optional_dict_get info' "description") ;;
  description' <- lift (py_add_str description args_description_) ;;
  Tool name (langchain_run get_instance_obj parse_json_markdown call_error_text self) description'.

End Construction.

(** ** A concrete agent and its collaborators

    The scenario of the specification: an agent that declares
    [input_keys() = ["query"]] and [output_keys() = ["answer"]], run against a
    planner stub that answers [{"answer": "hello"}]. *)

Module Example.

Definition qa_model : AgentModel :=
  mkAgentModel
    (Some {[ "name" := PStr "qa_agent"; "description" := PStr "answers" ]})
    None
    (Some {[ "planner" := PDict {[ "name" := PStr "stub_planner" ]} ]})
    None None.

(** [agent_input['input'] = input_object.get_data('query'); return agent_input] *)
Definition qa_parse_input (input_object : InputObject) (agent_input : loc) : M returned :=
  setitem agent_input "input" (InputObject_get_data input_object "query") ;;;
  ret (RetObject agent_input).

(** [return planner_result] *)
Definition qa_parse_result (planner_result : pyval) : M pyval := ret planner_result.

Definition qa_agent : Agent :=
  mkAgent (Some qa_model) ["query"] ["answer"] qa_parse_input qa_parse_result.

(** [return {'input': input_object.get_data('query')}]: a new mapping, the
    argument left alone. *)
Definition fresh_parse_input (input_object : InputObject) (agent_input : loc) : M returned :=
  ret (RetValue (PDict {[ "input" := InputObject_get_data input_object "query" ]})).

Definition fresh_agent : Agent :=
  mkAgent (Some qa_model) ["query"] ["answer"] fresh_parse_input qa_parse_result.

(** An agent that promises more than its planner delivers. *)
Definition strict_agent : Agent :=
  mkAgent (Some qa_model) ["query"] ["answer"; "sources"] qa_parse_input qa_parse_result.

Definition stub_planner : Planner :=
  mkPlanner (λ _ _ _, ret (PDict {[ "answer" := PStr "hello" ]})).

Definition stub_registry (name : pyval) : M (option Planner) :=
  ret (match name with
       | PStr s => if String.eqb s "stub_planner" then Some stub_planner else None
       | _ => None
       end).

Definition dquote : string := String (ascii_of_N 34) EmptyString.

(** The text [{"query": "hi"}]. *)
Definition query_hi : string :=
  "{" ++ dquote ++ "query" ++ dquote ++ ": " ++ dquote ++ "hi" ++ dquote ++ "}".

(** A JSON parser that knows one input. *)
Definition stub_parse_json_markdown (input : string) : outcome pyval :=
  if String.eqb input query_hi
  then Returns (PDict {[ "query" := PStr "hi" ]})
  else Raises (Raise (OtherException "JSONDecodeError") "Expecting value: line 1 column 1 (char 0)").

Definition stub_repr (v : pyval) : string := "".

(** The texts of one interpreter. *)
Definition stub_call_error_text (c : call_error) : string :=
  match c with
  | NotAMapping v =>
      "agentuniverse.agent.agent.Agent.run() argument after ** must be a mapping, not "
        ++ type_name v
  | RepeatedCallbacks =>
      "agentuniverse.agent.agent.Agent.run() got multiple values for keyword argument 'callbacks'"
  | RepeatedKeyword =>
      "agentuniverse.agent.agent.Agent.run() got multiple values for keyword argument"
  | RepeatedSelf => "Agent.run() got multiple values for argument 'self'"
  end.

Definition w0 : world := World ∅ (Date 2024 3 12) "demo_app" [].

End Example.

(** ** What the specification calls the two validation errors

    The code raises the builtin [Exception] with a message; the
    specification names the two families after the check that raises them. *)

Definition InputValidationError (e : exn) : Prop :=
  ∃ key, e = Raise Exception ("Input must have key: " ++ key ++ ".").

Definition OutputValidationError (e : exn) : Prop :=
  e = Raise Exception "Output type must be dict." ∨
  ∃ key, e = Raise Exception ("Output must have key: " ++ key ++ ".").

(** The four standard fields as [pre_parse_input] seeds them. *)
Definition standard_fields (input_object : InputObject) (today : date) : gmap string pyval :=
  <["date" := PStr (strftime_Ymd today)]>
    (<["image_urls" := py_or (InputObject_get_data input_object "image_urls") (PList [])]>
       (<["background" := py_or (InputObject_get_data input_object "background") (PStr "")]>
          (<["chat_history" := py_or (InputObject_get_data input_object "chat_history") (PStr "")]>
             ∅))).

(** The world in which [parse_input] is called: the new object holds the
    standard fields, nothing else changed. *)
Definition seeded (input_object : InputObject) (w : world) : world :=
  World (<[fresh (dom (heap w)) := standard_fields input_object (now w)]> (heap w))
        (now w) (base_info_appname w) (trace w).

(** The default [pre_parse_input] falls back to. *)
Definition standard_default (key : string) : pyval :=
  if String.eqb key "image_urls" then PList [] else PStr "".

Definition is_defaulted_key (key : string) : Prop :=
  key = "chat_history" ∨ key = "background" ∨ key = "image_urls".

(** What the input object supplies under [key] when that is truthy, the
    default otherwise. *)
Definition supplied_or_default (input_object : InputObject) (key : string) : pyval :=
  match in_params input_object !! key with
  | Some v => if truthy v then v else standard_default key
  | None => standard_default key
  end.

(** What the dictionary object [l] binds [key] to in the world [w]. *)
Definition binding (w : world) (l : loc) (key : string) : option pyval :=
  heap w !! l ≫= (λ d, d !! key).

(** *** Hooks without hidden state

    What "deterministic" means for the code [run] calls: a hook sees of the
    world nothing but the contents of the [agent_input] object it is
    handed.  Two worlds agree on a pair of objects when those hold the same
    contents. *)

Definition agree (l1 l2 : loc) (w1 w2 : world) : Prop :=
  heap w1 !! l1 = heap w2 !! l2.

(** Two results are alike: the same exception, or values related by [R]
    with the two objects still in agreement. *)
Definition alike {A B} (R : A → B → Prop) (l1 l2 : loc)
    (r1 : outcome A * world) (r2 : outcome B * world) : Prop :=
  match r1.1, r2.1 with
  | Returns a, Returns b => R a b ∧ agree l1 l2 r1.2 r2.2
  | Raises e1, Raises e2 => e1 = e2
  | _, _ => False
  end.

Definition deterministic_planner (p1 p2 : Planner) : Prop :=
  ∀ am input_object l1 l2 w1 w2,
    agree l1 l2 w1 w2 →
    (invoke p1 am l1 input_object w1).1 = (invoke p2 am l2 input_object w2).1.

Definition deterministic_registry (get_instance_obj : pyval → M (option Planner)) : Prop :=
  ∀ name l1 l2 w1 w2,
    agree l1 l2 w1 w2 →
    alike (option_Forall2 deterministic_planner) l1 l2
          (get_instance_obj name w1) (get_instance_obj name w2).

Definition deterministic_agent (self : Agent) : Prop :=
  (∀ input_object l1 l2 w1 w2,
     agree l1 l2 w1 w2 →
     alike (λ _ _ : returned, True) l1 l2
           (parse_input self input_object l1 w1) (parse_input self input_object l2 w2)) ∧
  (∀ planner_result w1 w2,
     (parse_result self planner_result w1).1 = (parse_result self planner_result w2).1).

(** Arithmetic with division and remainder by constants. *)
Ltac lia_div := zify; Z.to_euclidean_division_equations; lia.

(** ** Reasoning about the monad *)

Lemma bind_returns {A B} (c : M A) (k : A → M B) w a w' :
  c w = (Returns a, w') → bind c k w = k a w'.
Proof. intros H. unfold bind. by rewrite H. Qed.

Lemma bind_raises {A B} (c : M A) (k : A → M B) w e w' :
  c w = (Raises e, w') → bind c k w = (Raises e, w').
Proof. intros H. unfold bind. by rewrite H. Qed.

Lemma bind_returns_inv {A B} (c : M A) (k : A → M B) w b w' :
  bind c k w = (Returns b, w') →
  ∃ a w1, c w = (Returns a, w1) ∧ k a w1 = (Returns b, w').
Proof.
  unfold bind. destruct (c w) as [[a|e] w1] eqn:Hc; [eauto | discriminate].
Qed.

(** ** The date text *)

Lemma digit_value_digit n : digit_value (digit n) = Some (n mod 10)%N.
Proof.
  unfold digit_value, digit.
  rewrite N_ascii_embedding by lia_div.
  destruct (decide _) as [_|Hn]; [f_equal; lia_div|].
  exfalso. apply Hn. lia_div.
Qed.

(** The text [strftime] produces is ten characters, digits around two
    hyphens, and reads back as the date. *)
Lemma strftime_Ymd_parse d : valid_date d → parse_Ymd (strftime_Ymd d) = Some d.
Proof.
  destruct d as [y m dd]. unfold valid_date. simpl. intros (Hy & Hm & Hd).
  unfold strftime_Ymd, pad4, pad2. simpl.
  rewrite !digit_value_digit. simpl. f_equal.
  f_equal; lia_div.
Qed.

(** ** Properties of the lifecycle *)

Section Properties.

Set Default Proof Using "Type".

Variable AGENT : string.
Variable get_instance_obj : pyval → M (option Planner).
Variable parse_json_markdown : string → outcome pyval.
Variable call_error_text : call_error → string.
Variable repr_builtin : pyval → string.

(** [set_solver] looks at the whole context: drop the collaborators a
    goal does not mention first. *)
Ltac set_solve :=
  repeat match goal with
         | x : string |- _ => clear x
         | x : pyval → _ |- _ => clear x
         | x : string → _ |- _ => clear x
         end;
  set_solver.

Lemma input_check_keys_ok keys (kwargs : gmap string pyval) w :
  (∀ key, key ∈ keys → key ∈ dom kwargs) →
  input_check_keys keys kwargs w = (Returns (), w).
Proof.
  induction keys as [|key keys IH]; intros Hall; simpl; [done|].
  rewrite decide_True by (apply Hall; left).
  apply IH. intros k Hk. apply Hall. by right.
Qed.

Lemma input_check_keys_missing keys (kwargs : gmap string pyval) w :
  (∃ key, key ∈ keys ∧ key ∉ dom kwargs) →
  ∃ key, key ∈ keys ∧ (key ∉ dom kwargs) ∧
    input_check_keys keys kwargs w
    = (Raises (Raise Exception ("Input must have key: " ++ key ++ ".")), w).
Proof.
  induction keys as [|key keys IH]; intros (k & Hk & Hmiss).
  - by apply elem_of_nil in Hk.
  - simpl. destruct (decide (key ∈ dom kwargs)) as [Hin|Hout].
    + apply elem_of_cons in Hk as [->|Hk]; [done|].
      destruct IH as (k' & Hk' & Hm' & Hrun); [by eauto|].
      exists k'. split; [by right|]. done.
    + exists key. split; [by left|]. done.
Qed.

Lemma input_check_keys_returns_inv keys (kwargs : gmap string pyval) w u w' :
  input_check_keys keys kwargs w = (Returns u, w') →
  w' = w ∧ ∀ key, key ∈ keys → key ∈ dom kwargs.
Proof.
  induction keys as [|key keys IH]; simpl.
  - intros [= _ <-]. split; [done|]. intros k Hk. by apply elem_of_nil in Hk.
  - destruct (decide (key ∈ dom kwargs)) as [Hin|Hout]; [|discriminate].
    intros H. destruct (IH H) as [-> Hall]. split; [done|].
    intros k [->|Hk]%elem_of_cons; auto.
Qed.

Lemma output_check_keys_ok keys (kwargs : gmap string pyval) w :
  (∀ key, key ∈ keys → key ∈ dom kwargs) →
  output_check_keys keys kwargs w = (Returns (), w).
Proof.
  induction keys as [|key keys IH]; intros Hall; simpl; [done|].
  rewrite decide_True by (apply Hall; left).
  apply IH. intros k Hk. apply Hall. by right.
Qed.

Lemma output_check_keys_missing keys (kwargs : gmap string pyval) w :
  (∃ key, key ∈ keys ∧ key ∉ dom kwargs) →
  ∃ key, key ∈ keys ∧ (key ∉ dom kwargs) ∧
    output_check_keys keys kwargs w
    = (Raises (Raise Exception ("Output must have key: " ++ key ++ ".")), w).
Proof.
  induction keys as [|key keys IH]; intros (k & Hk & Hmiss).
  - by apply elem_of_nil in Hk.
  - simpl. destruct (decide (key ∈ dom kwargs)) as [Hin|Hout].
    + apply elem_of_cons in Hk as [->|Hk]; [done|].
      destruct IH as (k' & Hk' & Hm' & Hrun); [by eauto|].
      exists k'. split; [by right|]. done.
    + exists key. split; [by left|]. done.
Qed.

Lemma output_check_returns_inv self v w u w' :
  output_check self v w = (Returns u, w') →
  w' = w ∧ ∃ d, v = PDict d ∧ ∀ key, key ∈ output_keys self → key ∈ dom d.
Proof.
  destruct v; simpl; try discriminate.
  intros H. revert H. generalize (output_keys self) as keys.
  induction keys as [|key keys IH]; simpl.
  - intros [= _ <-]. split; [done|]. eexists; split; [done|].
    intros k Hk. by apply elem_of_nil in Hk.
  - destruct (decide (key ∈ dom d)) as [Hin|Hout]; [|discriminate].
    intros H. destruct (IH H) as (-> & d' & [= <-] & Hall). split; [done|].
    eexists; split; [done|]. intros k [->|Hk]%elem_of_cons; auto.
Qed.

(** What a normal return of [run] went through. *)
Lemma run_returns_inv self kwargs w oo w' :
  run get_instance_obj self kwargs w = (Returns oo, w') →
  (∀ key, key ∈ input_keys self → key ∈ dom kwargs) ∧
  ∃ d, out_params oo = PDict d ∧ ∀ key, key ∈ output_keys self → key ∈ dom d.
Proof.
  unfold run. intros H.
  apply bind_returns_inv in H as (u & w1 & Hin & H).
  apply input_check_keys_returns_inv in Hin as [-> Hin].
  split; [done|].
  apply bind_returns_inv in H as (l & w2 & _ & H).
  apply bind_returns_inv in H as (pr & w3 & _ & H).
  apply bind_returns_inv in H as (v & w4 & _ & H).
  apply bind_returns_inv in H as (u' & w5 & Hout & H).
  apply output_check_returns_inv in Hout as (-> & d & -> & Hall).
  injection H as <- <-. eauto.
Qed.

(** C1: a call of [run] whose keyword arguments lack a key of
    [input_keys()] raises the input validation error that names the first
    such key, and nothing else happens: the world, and with it the trace of
    registry lookups and planner invocations, is as it was. *)
Theorem run_missing_input_key self (kwargs : gmap string pyval) w :
  (∃ key, key ∈ input_keys self ∧ kwargs !! key = None) →
  ∃ key e,
    key ∈ input_keys self ∧ kwargs !! key = None ∧
    e = Raise Exception ("Input must have key: " ++ key ++ ".") ∧
    InputValidationError e ∧
    run get_instance_obj self kwargs w = (Raises e, w) ∧
    trace (run get_instance_obj self kwargs w).2 = trace w.
Proof.
  intros (k & Hk & Hnone).
  destruct (input_check_keys_missing (input_keys self) kwargs w)
    as (key & Hkey & Hmiss & Hrun).
  { exists k. split; [done|]. by apply not_elem_of_dom. }
  assert (Hraise : run get_instance_obj self kwargs w
                   = (Raises (Raise Exception ("Input must have key: " ++ key ++ ".")), w)).
  { unfold run. by apply bind_raises. }
  exists key. eexists. split; [done|]. split; [by apply not_elem_of_dom|].
  split; [done|]. split; [by exists key|]. split; [done|]. by rewrite Hraise.
Qed.

(** The steps of [run] up to [parse_result], then the check. *)
Lemma run_after_parse_result self (kwargs : gmap string pyval) w l w1 pr w2 v w3 :
  (∀ key, key ∈ input_keys self → key ∈ dom kwargs) →
  pre_parse_input self (mkInputObject kwargs) w = (Returns l, w1) →
  execute get_instance_obj self (mkInputObject kwargs) l w1 = (Returns pr, w2) →
  parse_result self pr w2 = (Returns v, w3) →
  run get_instance_obj self kwargs w
  = (output_check self v ;;; ret (mkOutputObject v)) w3.
Proof.
  intros Hin Hpre Hexec Hres. unfold run.
  rewrite (bind_returns _ _ w () w) by by apply input_check_keys_ok.
  rewrite (bind_returns _ _ _ _ _ Hpre).
  rewrite (bind_returns _ _ _ _ _ Hexec).
  by rewrite (bind_returns _ _ _ _ _ Hres).
Qed.

(** C2: when [parse_result] hands back something that is not a [dict], or
    a [dict] that lacks a key of [output_keys()], [run] raises the output
    validation error; a [dict] holding every key (and any others) passes
    [output_check], and [run] returns it wrapped. *)
Theorem run_output_check self (kwargs : gmap string pyval) w l w1 pr w2 v w3 :
  (∀ key, key ∈ input_keys self → key ∈ dom kwargs) →
  pre_parse_input self (mkInputObject kwargs) w = (Returns l, w1) →
  execute get_instance_obj self (mkInputObject kwargs) l w1 = (Returns pr, w2) →
  parse_result self pr w2 = (Returns v, w3) →
  (((∀ d, v ≠ PDict d) ∨
    (∃ d key, v = PDict d ∧ key ∈ output_keys self ∧ d !! key = None)) →
   ∃ e, OutputValidationError e ∧
        run get_instance_obj self kwargs w = (Raises e, w3)) ∧
  (∀ d, v = PDict d →
        (∀ key, key ∈ output_keys self → is_Some (d !! key)) →
        output_check self v w3 = (Returns (), w3) ∧
        run get_instance_obj self kwargs w = (Returns (mkOutputObject v), w3)).
Proof.
  intros Hin Hpre Hexec Hres.
  rewrite (run_after_parse_result _ _ _ _ _ _ _ _ _ Hin Hpre Hexec Hres).
  split.
  - intros [Hnd | (d & key & -> & Hkey & Hnone)].
    + exists (Raise Exception "Output type must be dict."). split; [by left|].
      apply bind_raises. destruct v; try done. by destruct (Hnd d).
    + destruct (output_check_keys_missing (output_keys self) d w3)
        as (k & Hk & Hmiss & Hrun).
      { exists key. split; [done|]. by apply not_elem_of_dom. }
      eexists. split; [right; by exists k|]. by apply bind_raises.
  - intros d -> Hall.
    assert (Hok : output_check self (PDict d) w3 = (Returns (), w3)).
    { apply output_check_keys_ok. intros k Hk. apply elem_of_dom. auto. }
    split; [done|]. by rewrite (bind_returns _ _ _ _ _ Hok).
Qed.

(** C4: whenever [run] returns, the object it returns wraps a [dict] that
    holds every key of [output_keys()]. *)
Theorem run_output_has_keys self (kwargs : gmap string pyval) w oo w' :
  run get_instance_obj self kwargs w = (Returns oo, w') →
  ∃ d, out_params oo = PDict d ∧
       ∀ key, key ∈ output_keys self → is_Some (d !! key).
Proof.
  intros H. apply run_returns_inv in H as (_ & d & Hd & Hall).
  exists d. split; [done|]. intros key Hkey. apply elem_of_dom. auto.
Qed.

(** *** Pre-parsing *)

Lemma standard_fields_defaulted input_object today key :
  is_defaulted_key key →
  standard_fields input_object today !! key = Some (supplied_or_default input_object key).
Proof.
  unfold standard_fields, supplied_or_default, InputObject_get_data, py_or.
  intros [-> | [-> | ->]]; simplify_map_eq;
    by destruct (in_params input_object !! _) as [v|].
Qed.

Lemma standard_fields_date input_object today :
  standard_fields input_object today !! "date" = Some (PStr (strftime_Ymd today)).
Proof. unfold standard_fields. by simplify_map_eq. Qed.

Lemma standard_fields_other input_object today key :
  key ≠ "chat_history" → key ≠ "background" → key ≠ "image_urls" → key ≠ "date" →
  standard_fields input_object today !! key = None.
Proof. intros. unfold standard_fields. by simplify_map_eq. Qed.

Lemma seeded_lookup input_object w :
  heap (seeded input_object w) !! fresh (dom (heap w))
  = Some (standard_fields input_object (now w)).
Proof. unfold seeded. simpl. apply lookup_insert_eq. Qed.

(** [pre_parse_input] is: seed a new object, call [parse_input] on it, drop
    what that returns, return the object. *)
Lemma pre_parse_input_seeded self input_object w :
  pre_parse_input self input_object w
  = (parse_input self input_object (fresh (dom (heap w))) ;;;
     ret (fresh (dom (heap w)))) (seeded input_object w).
Proof.
  unfold pre_parse_input, bind, new_dict, setitem, datetime_now, seeded, standard_fields.
  simpl. by rewrite !alter_insert_eq.
Qed.

Lemma seeded_binding input_object w key :
  binding (seeded input_object w) (fresh (dom (heap w))) key
  = standard_fields input_object (now w) !! key.
Proof. unfold binding. by rewrite seeded_lookup. Qed.

(** C3, as amended: on an invocation in which [parse_input] returns
    without rebinding the four standard keys, the mapping
    [pre_parse_input] returns binds [chat_history], [background] and
    [image_urls] to the value the input object supplies when that value is
    truthy and to the default ([""], [""], [[]]) when the key is absent or
    its value is falsy, and binds [date] to the current date as
    YYYY-MM-DD. *)
Theorem pre_parse_input_fields self input_object w r w' :
  parse_input self input_object (fresh (dom (heap w))) (seeded input_object w)
  = (Returns r, w') →
  (∀ key, key ∈ ["chat_history"; "background"; "image_urls"; "date"] →
          binding w' (fresh (dom (heap w))) key
          = binding (seeded input_object w) (fresh (dom (heap w))) key) →
  valid_date (now w) →
  pre_parse_input self input_object w = (Returns (fresh (dom (heap w))), w') ∧
  (∀ key, is_defaulted_key key →
          binding w' (fresh (dom (heap w))) key
          = Some (supplied_or_default input_object key)) ∧
  binding w' (fresh (dom (heap w))) "date" = Some (PStr (strftime_Ymd (now w))) ∧
  parse_Ymd (strftime_Ymd (now w)) = Some (now w).
Proof.
  intros Hrun Hsame Hdate. split; [|split; [|split]].
  - by rewrite pre_parse_input_seeded, (bind_returns _ _ _ _ _ Hrun).
  - intros key Hkey. rewrite Hsame, seeded_binding.
    + by apply standard_fields_defaulted.
    + destruct Hkey as [-> | [-> | ->]]; set_solve.
  - rewrite Hsame by set_solve. rewrite seeded_binding. apply standard_fields_date.
  - by apply strftime_Ymd_parse.
Qed.

(** C9: a value that is present but falsy is replaced like an absent one.
    With [chat_history], [background] or [image_urls] bound to a falsy
    value, the mapping [pre_parse_input] seeds and hands to [parse_input]
    binds that key to its default; and on every invocation in which
    [parse_input] returns without rebinding the key, so does the mapping
    [pre_parse_input] returns. *)
Theorem pre_parse_input_falsy_default self input_object w key v :
  is_defaulted_key key →
  in_params input_object !! key = Some v →
  truthy v = false →
  pre_parse_input self input_object w
  = (parse_input self input_object (fresh (dom (heap w))) ;;;
     ret (fresh (dom (heap w)))) (seeded input_object w) ∧
  binding (seeded input_object w) (fresh (dom (heap w))) key
  = Some (standard_default key) ∧
  ∀ r w',
    parse_input self input_object (fresh (dom (heap w))) (seeded input_object w)
    = (Returns r, w') →
    binding w' (fresh (dom (heap w))) key
    = binding (seeded input_object w) (fresh (dom (heap w))) key →
    pre_parse_input self input_object w = (Returns (fresh (dom (heap w))), w') ∧
    binding w' (fresh (dom (heap w))) key = Some (standard_default key).
Proof.
  intros Hkey Hv Hfalsy.
  assert (Hseed : binding (seeded input_object w) (fresh (dom (heap w))) key
                  = Some (standard_default key)).
  { rewrite seeded_binding, standard_fields_defaulted by done.
    unfold supplied_or_default. by rewrite Hv, Hfalsy. }
  split; [apply pre_parse_input_seeded|]. split; [done|].
  intros r w' Hrun Hsame. split.
  - by rewrite pre_parse_input_seeded, (bind_returns _ _ _ _ _ Hrun).
  - by rewrite Hsame.
Qed.

(** The values C9 lists are falsy, and so is the empty [dict]. *)
Lemma listed_values_falsy :
  truthy PNone = false ∧ truthy (PBool false) = false ∧ truthy (PInt 0) = false ∧
  truthy (PStr "") = false ∧ truthy (PList []) = false ∧ truthy (PDict ∅) = false.
Proof. repeat split. Qed.

(** C10: [pre_parse_input] returns the object it seeded whatever
    [parse_input] returns; when [parse_input] does not touch that object,
    it still holds the four standard fields and nothing else, and it is
    the object [run] passes on to [execute], hence to the planner. *)
Theorem pre_parse_input_ignores_returned self (kwargs : gmap string pyval) w r w2 :
  parse_input self (mkInputObject kwargs) (fresh (dom (heap w)))
    (seeded (mkInputObject kwargs) w) = (Returns r, w2) →
  pre_parse_input self (mkInputObject kwargs) w = (Returns (fresh (dom (heap w))), w2) ∧
  (heap w2 !! fresh (dom (heap w))
     = heap (seeded (mkInputObject kwargs) w) !! fresh (dom (heap w)) →
   ∃ d, heap w2 !! fresh (dom (heap w)) = Some d ∧
        dom d = {[ "chat_history"; "background"; "image_urls"; "date" ]} ∧
        ((∀ key, key ∈ input_keys self → key ∈ dom kwargs) →
         run get_instance_obj self kwargs w
         = (planner_result <-
              execute get_instance_obj self (mkInputObject kwargs)
                (fresh (dom (heap w))) ;;
            agent_result <- parse_result self planner_result ;;
            output_check self agent_result ;;;
            ret (mkOutputObject agent_result)) w2)).
Proof.
  intros Hrun.
  assert (Hpre : pre_parse_input self (mkInputObject kwargs) w
                 = (Returns (fresh (dom (heap w))), w2)).
  { by rewrite pre_parse_input_seeded, (bind_returns _ _ _ _ _ Hrun). }
  split; [done|]. intros Hframe.
  exists (standard_fields (mkInputObject kwargs) (now w)).
  split; [by rewrite Hframe, seeded_lookup|]. split.
  - unfold standard_fields. rewrite !dom_insert_L, dom_empty_L. set_solve.
  - intros Hin. unfold run.
    rewrite (bind_returns _ _ w () w) by by apply input_check_keys_ok.
    by rewrite (bind_returns _ _ _ _ _ Hpre).
Qed.

(** *** The tool adapter *)

(** C5: when [parse_json_markdown] fails on the input, [langchain_run]
    does not raise: it logs the failure and returns the fixed reply. *)
Theorem langchain_run_parse_failure self input callbacks (kwargs : gmap string pyval) w e :
  parse_json_markdown input = Raises e →
  isinstance_Exception e = true →
  langchain_run get_instance_obj parse_json_markdown call_error_text self input callbacks kwargs w
  = (Returns (PStr "Error , Your Action Input is not a valid JSON string"),
     World (heap w) (now w) (base_info_appname w)
           (trace w ++ [EvLoggerError (parse_error_message e)])).
Proof. intros Hparse Hexc. unfold langchain_run. by rewrite Hparse, Hexc. Qed.

(** The projection loop binds every key of [keys] to what [get_data]
    gives and leaves the other keys of the accumulator alone. *)
Lemma collect_output_spec keys out (acc : gmap string pyval) w :
  ∃ result,
    collect_output keys (mkOutputObject (PDict out)) acc w = (Returns result, w) ∧
    dom result = dom acc ∪ list_to_set keys ∧
    (∀ key, key ∈ keys → result !! key = Some (default PNone (out !! key))) ∧
    (∀ key, key ∉ keys → result !! key = acc !! key).
Proof.
  revert acc. induction keys as [|k keys IH]; intros acc.
  - exists acc. split; [done|]. split; [set_solve|]. split; [|done].
    intros key Hkey. by apply elem_of_nil in Hkey.
  - destruct (IH (<[k := default PNone (out !! k)]> acc))
      as (result & Hrun & Hdom & Hin & Hout).
    exists result. split; [done|]. split; [|split].
    + rewrite Hdom, dom_insert_L. set_solve.
    + intros key Hkey. destruct (decide (key ∈ keys)) as [Hk|Hk]; [by apply Hin|].
      apply elem_of_cons in Hkey as [->|Hkey]; [|done].
      rewrite (Hout k Hk). apply lookup_insert_eq.
    + intros key Hkey. apply not_elem_of_cons in Hkey as [Hne Hkey].
      rewrite (Hout key Hkey). by apply lookup_insert_ne.
Qed.

(** C6: on an input that parses to a mapping the call accepts, and on
    which [run] returns, [langchain_run] returns a mapping whose keys are
    exactly [output_keys()], each bound as in the mapping the output
    object wraps. *)
Theorem langchain_run_projects_output self input callbacks (kwargs : gmap string pyval)
    w parsed kw oo w' :
  parse_json_markdown input = Returns parsed →
  call_kwargs call_error_text parsed callbacks kwargs = Returns kw →
  run get_instance_obj self kw w = (Returns oo, w') →
  (∀ key, key ∈ input_keys self → key ∈ dom kw) ∧
  ∃ result out,
    langchain_run get_instance_obj parse_json_markdown call_error_text self input callbacks kwargs w
    = (Returns (PDict result), w') ∧
    out_params oo = PDict out ∧
    dom result = list_to_set (output_keys self) ∧
    ∀ key, key ∈ output_keys self →
           is_Some (out !! key) ∧ result !! key = out !! key.
Proof.
  intros Hparse Hkw Hrun.
  destruct (run_returns_inv _ _ _ _ _ Hrun) as (Hin & out & Hout & Hall).
  split; [done|].
  destruct oo as [v]. simpl in Hout. subst v.
  destruct (collect_output_spec (output_keys self) out ∅ w')
    as (result & Hloop & Hdom & Hkeys & _).
  exists result, out. split; [|split; [done|split]].
  - unfold langchain_run. rewrite Hparse.
    rewrite (bind_returns _ _ w kw w) by (unfold lift; by rewrite Hkw).
    rewrite (bind_returns _ _ _ _ _ Hrun).
    by rewrite (bind_returns _ _ _ _ _ Hloop).
  - rewrite Hdom, dom_empty_L. set_solve.
  - intros key Hkey.
    assert (Hsome : is_Some (out !! key)) by (apply elem_of_dom; auto).
    split; [done|]. rewrite (Hkeys key Hkey). by destruct Hsome as [x ->].
Qed.

(** *** The instance code *)

(** C8: [get_instance_code] is the application name, the component type
    value in lower case and the name held in [agent_model.info], joined
    by dots; it reads the world and leaves it as it was. *)
Theorem get_instance_code_format self w am d name :
  agent_model self = Some am →
  info am = Some d →
  d !! "name" = Some (PStr name) →
  get_instance_code AGENT repr_builtin self w
  = (Returns (base_info_appname w ++ "." ++ lower AGENT ++ "." ++ name), w).
Proof.
  intros Ham Hinfo Hname.
  unfold get_instance_code, bind, app_configer_base_info_appname, lift,
    agent_model_attr, optional_dict_get.
  rewrite Ham, Hinfo. simpl. by rewrite Hname.
Qed.

(** *** No state kept between calls *)

Lemma bind_fst {A B} (c : M A) (k : A → M B) w :
  (bind c k w).1
  = match (c w).1 with
    | Returns a => (k a (c w).2).1
    | Raises e => Raises e
    end.
Proof. unfold bind. by destruct (c w) as [[a|e] w']. Qed.

Lemma input_check_keys_pure keys (kwargs : gmap string pyval) :
  ∃ o, ∀ w, input_check_keys keys kwargs w = (o, w).
Proof.
  induction keys as [|key keys [o IH]]; simpl; [by eexists|].
  destruct (decide (key ∈ dom kwargs)); by eexists.
Qed.

Lemma output_check_pure self v :
  ∃ o, ∀ w, output_check self v w = (o, w).
Proof.
  destruct v; simpl; try by eexists.
  induction (output_keys self) as [|key keys [o IH]]; simpl; [by eexists|].
  destruct (decide (key ∈ dom d)); by eexists.
Qed.

Lemma seeded_agree input_object w1 w2 :
  now w1 = now w2 →
  agree (fresh (dom (heap w1))) (fresh (dom (heap w2)))
        (seeded input_object w1) (seeded input_object w2).
Proof. intros Hnow. unfold agree. rewrite !seeded_lookup. by rewrite Hnow. Qed.

Lemma execute_deterministic self input_object l1 l2 w1 w2 :
  deterministic_registry get_instance_obj →
  agree l1 l2 w1 w2 →
  (execute get_instance_obj self input_object l1 w1).1
  = (execute get_instance_obj self input_object l2 w2).1.
Proof.
  intros Hreg Hagree. unfold execute.
  rewrite !bind_fst. unfold lift. simpl.
  destruct (agent_model_attr self "plan" plan) as [plan_|e]; [|done].
  rewrite !bind_fst. simpl.
  destruct (optional_dict_get plan_ "planner") as [cfg|e]; [|done].
  rewrite !bind_fst. simpl.
  destruct (py_get cfg "name") as [name|e]; [|done].
  rewrite !bind_fst. simpl.
  set (wa := World (heap w1) (now w1) (base_info_appname w1) _).
  set (wb := World (heap w2) (now w2) (base_info_appname w2) _).
  assert (Hlook : alike (option_Forall2 deterministic_planner) l1 l2
                        (get_instance_obj name wa) (get_instance_obj name wb))
    by by apply Hreg.
  unfold alike in Hlook.
  destruct (get_instance_obj name wa) as [[o1|e1] wa'];
    destruct (get_instance_obj name wb) as [[o2|e2] wb']; simpl in *;
    try done; [|by subst].
  destruct Hlook as [Hp Hagree'].
  destruct Hp as [p1 p2 Hp|]; [|done].
  rewrite !bind_fst. simpl. by apply Hp.
Qed.

(** C7: for an agent and a registry without hidden state, the result of
    [run] depends on the keyword arguments and the date only: two calls
    with the same arguments on the same day give the same result, whatever
    else differs between the worlds they start from. *)
Theorem run_deterministic self (kwargs : gmap string pyval) w1 w2 :
  deterministic_agent self →
  deterministic_registry get_instance_obj →
  now w1 = now w2 →
  (run get_instance_obj self kwargs w1).1 = (run get_instance_obj self kwargs w2).1.
Proof.
  intros [Hpi Hpr] Hreg Hnow. unfold run.
  destruct (input_check_keys_pure (input_keys self) kwargs) as [o Ho].
  rewrite !bind_fst. unfold input_check. rewrite !Ho. simpl.
  destruct o as [[]|e]; [|done].
  rewrite !pre_parse_input_seeded.
  pose proof (Hpi (mkInputObject kwargs) _ _ _ _
                (seeded_agree (mkInputObject kwargs) w1 w2 Hnow)) as Hparse.
  unfold alike in Hparse.
  destruct (parse_input self _ (fresh (dom (heap w1))) _) as [[r1|e1] wa] eqn:E1;
    destruct (parse_input self _ (fresh (dom (heap w2))) _) as [[r2|e2] wb] eqn:E2;
    simpl in Hparse; try done.
  - destruct Hparse as [_ Hagree].
    rewrite (bind_returns _ _ _ _ _ E1), (bind_returns _ _ _ _ _ E2). simpl.
    rewrite !bind_fst.
    rewrite (execute_deterministic self _ _ _ wa wb Hreg Hagree).
    destruct (execute get_instance_obj self _ (fresh (dom (heap w2))) wb).1
      as [pr|e]; [|done].
    rewrite !bind_fst.
    rewrite (Hpr pr (execute get_instance_obj self (mkInputObject kwargs)
                       (fresh (dom (heap w1))) wa).2
                    (execute get_instance_obj self (mkInputObject kwargs)
                       (fresh (dom (heap w2))) wb).2).
    destruct (parse_result self pr _).1 as [v|e]; [|done].
    destruct (output_check_pure self v) as [o Hout].
    rewrite !bind_fst, !Hout. simpl. by destruct o.
  - rewrite (bind_raises _ _ _ _ _ E1), (bind_raises _ _ _ _ _ E2). simpl.
    by subst.
Qed.

End Properties.

(** ** Further properties of the lifecycle *)

Section Further.

Set Default Proof Using "Type".

Variable AGENT : string.
Variable get_instance_obj : pyval → M (option Planner).
Variable parse_json_markdown : string → outcome pyval.
Variable call_error_text : call_error → string.
Variable repr_builtin : pyval → string.

Ltac set_solve_closed :=
  repeat match goal with
         | x : string |- _ => clear x
         | x : pyval → _ |- _ => clear x
         | x : string → _ |- _ => clear x
         end;
  set_solver.

(** X1: [input_check] returns exactly when every key of [input_keys()] is
    among the keyword arguments (others may be there too), and whether it
    returns or raises it leaves the world as it was. *)
Theorem input_check_iff self (kwargs : gmap string pyval) w :
  (input_check self kwargs w = (Returns (), w)
   ↔ ∀ key, key ∈ input_keys self → is_Some (kwargs !! key)) ∧
  (input_check self kwargs w).2 = w.
Proof.
  unfold input_check. split; [split|].
  - intros H key Hkey. apply elem_of_dom.
    by apply (input_check_keys_returns_inv _ _ _ _ _ H).
  - intros Hall. apply input_check_keys_ok. intros key Hkey.
    apply elem_of_dom. auto.
  - destruct (input_check_keys_pure (input_keys self) kwargs) as [o Ho].
    by rewrite Ho.
Qed.

(** X2: with several keys missing, the error names the first one in the
    order of [input_keys()]: the keys before it are all present. *)
Theorem input_check_first_missing self (kwargs : gmap string pyval) w before key after :
  input_keys self = (before ++ key :: after)%list →
  (∀ k, k ∈ before → is_Some (kwargs !! k)) →
  kwargs !! key = None →
  input_check self kwargs w
  = (Raises (Raise Exception ("Input must have key: " ++ key ++ ".")), w).
Proof.
  unfold input_check. intros -> Hbefore Hnone.
  induction before as [|k before IH]; simpl.
  - rewrite decide_False; [done|]. by apply not_elem_of_dom.
  - rewrite decide_True.
    + apply IH. intros k' Hk'. apply Hbefore. by right.
    + apply elem_of_dom, Hbefore. by left.
Qed.

(** X3: [output_check] returns exactly when the result is a [dict] that
    holds every key of [output_keys()], and it leaves the world as it
    was. *)
Theorem output_check_iff self v w :
  (output_check self v w = (Returns (), w)
   ↔ ∃ d, v = PDict d ∧ ∀ key, key ∈ output_keys self → is_Some (d !! key)) ∧
  (output_check self v w).2 = w.
Proof.
  split; [split|].
  - intros H. apply output_check_returns_inv in H as (_ & d & -> & Hall).
    exists d. split; [done|]. intros key Hkey. apply elem_of_dom. auto.
  - intros (d & -> & Hall). apply output_check_keys_ok. intros key Hkey.
    apply elem_of_dom. auto.
  - destruct (output_check_pure self v) as [o Ho]. by rewrite Ho.
Qed.

(** X4: a [dict] result that lacks several keys is refused with the first
    missing key of [output_keys()] in the message. *)
Theorem output_check_first_missing self (d : gmap string pyval) w before key after :
  output_keys self = (before ++ key :: after)%list →
  (∀ k, k ∈ before → is_Some (d !! k)) →
  d !! key = None →
  output_check self (PDict d) w
  = (Raises (Raise Exception ("Output must have key: " ++ key ++ ".")), w).
Proof.
  simpl. intros -> Hbefore Hnone.
  induction before as [|k before IH]; simpl.
  - rewrite decide_False; [done|]. by apply not_elem_of_dom.
  - rewrite decide_True.
    + apply IH. intros k' Hk'. apply Hbefore. by right.
    + apply elem_of_dom, Hbefore. by left.
Qed.

(** X5: when the subclass's [parse_input] raises, [run] raises the same
    exception in the world [parse_input] left: [execute] is not reached, the
    registry is not consulted and no planner is invoked. *)
Theorem run_parse_input_raises self (kwargs : gmap string pyval) w e w' :
  (∀ key, key ∈ input_keys self → is_Some (kwargs !! key)) →
  parse_input self (mkInputObject kwargs) (fresh (dom (heap w)))
    (seeded (mkInputObject kwargs) w) = (Raises e, w') →
  run get_instance_obj self kwargs w = (Raises e, w') ∧
  ∀ registry, run registry self kwargs w = (Raises e, w').
Proof.
  intros Hin Hraise.
  assert (Hall : ∀ registry, run registry self kwargs w = (Raises e, w')).
  { intros registry. unfold run.
    rewrite (bind_returns _ _ w () w).
    - apply bind_raises. rewrite pre_parse_input_seeded. by apply bind_raises.
    - apply input_check_keys_ok. intros key Hkey. apply elem_of_dom. auto. }
  split; [apply Hall | done].
Qed.

(** X6: the object [pre_parse_input] returns is a new one, and as long as
    it stays in the store a later call returns another: two runs never
    share their [agent_input]. *)
Theorem pre_parse_input_fresh self input_object w l w' :
  pre_parse_input self input_object w = (Returns l, w') →
  (l ∉ dom (heap w)) ∧
  ∀ input_object' l2 w2,
    l ∈ dom (heap w') →
    pre_parse_input self input_object' w' = (Returns l2, w2) →
    l2 ≠ l.
Proof.
  rewrite pre_parse_input_seeded. intros H.
  apply bind_returns_inv in H as (r & w1 & _ & H). injection H as <- Hw. subst w1.
  split; [apply is_fresh|].
  intros input_object' l2 w2 Hin H2. rewrite pre_parse_input_seeded in H2.
  apply bind_returns_inv in H2 as (r2 & w3 & _ & H2). injection H2 as <- _.
  intros Heq. rewrite <- Heq in Hin. by apply (is_fresh (dom (heap w'))).
Qed.

(** *** Execution *)

(** X7: on an agent that was never initialised, or whose model has no
    plan, or whose plan has no [planner] entry, [execute] raises an
    [AttributeError] and leaves the world as it was: the registry is not
    consulted. *)
Theorem execute_unconfigured self input_object l w :
  agent_model self = None ∨
  (∃ am, agent_model self = Some am ∧
         (plan am = None ∨ ∃ p, plan am = Some p ∧ p !! "planner" = None)) →
  ∃ msg, execute get_instance_obj self input_object l w
         = (Raises (Raise AttributeError msg), w).
Proof.
  unfold execute, bind, lift, agent_model_attr, optional_dict_get.
  intros [-> | (am & -> & [-> | (p & -> & Hp)])]; simpl.
  - by eexists.
  - by eexists.
  - rewrite Hp. simpl. by eexists.
Qed.

(** X8: when the registry knows no planner by the configured name,
    [execute] raises an [AttributeError] (nothing to call [invoke] on) in
    the world the registry left, and no invocation is recorded. *)
Theorem execute_unknown_planner self input_object l w am p cfg w' :
  agent_model self = Some am →
  plan am = Some p →
  p !! "planner" = Some (PDict cfg) →
  get_instance_obj (default PNone (cfg !! "name"))
    (World (heap w) (now w) (base_info_appname w)
           (trace w ++ [EvGetPlanner (default PNone (cfg !! "name"))]))
  = (Returns None, w') →
  execute get_instance_obj self input_object l w
  = (Raises (Raise AttributeError "'NoneType' object has no attribute 'invoke'"), w').
Proof.
  intros Ham Hplan Hcfg Hreg.
  unfold execute, bind, lift, agent_model_attr, optional_dict_get, emit.
  rewrite Ham, Hplan. simpl. rewrite Hcfg. simpl. by rewrite Hreg.
Qed.

(** On a configured agent, [execute] asks the registry for the name
    under [plan['planner']['name']] ([None] when there is none) and
    invokes the planner it gets with the agent's model, the very
    [agent_input] object and the input object; its result is the
    planner's. *)
Theorem execute_invokes_named_planner self input_object l w am p cfg planner w' :
  agent_model self = Some am →
  plan am = Some p →
  p !! "planner" = Some (PDict cfg) →
  get_instance_obj (default PNone (cfg !! "name"))
    (World (heap w) (now w) (base_info_appname w)
           (trace w ++ [EvGetPlanner (default PNone (cfg !! "name"))]))
  = (Returns (Some planner), w') →
  execute get_instance_obj self input_object l w
  = invoke planner (Some am) l input_object
      (World (heap w') (now w') (base_info_appname w') (trace w' ++ [EvInvoke l])).
Proof.
  intros Ham Hplan Hcfg Hreg.
  unfold execute, bind, lift, agent_model_attr, optional_dict_get, emit.
  rewrite Ham, Hplan. simpl. rewrite Hcfg. simpl. by rewrite Hreg.
Qed.

(** *** The instance code, at the edges *)

(** X9: [get_instance_code] never changes the world, whether it returns
    or raises. *)
Theorem get_instance_code_read_only self w :
  (get_instance_code AGENT repr_builtin self w).2 = w.
Proof.
  unfold get_instance_code, bind, lift, app_configer_base_info_appname,
    agent_model_attr, optional_dict_get.
  destruct (agent_model self) as [am|]; [|done]. simpl.
  by destruct (info am).
Qed.

(** X10: when [info] holds no [name], [get_instance_code] does not fail:
    the last segment of the code is the text [None]. *)
Theorem get_instance_code_missing_name self w am d :
  agent_model self = Some am →
  info am = Some d →
  d !! "name" = None →
  get_instance_code AGENT repr_builtin self w
  = (Returns (base_info_appname w ++ "." ++ lower AGENT ++ ".None"), w).
Proof.
  intros Ham Hinfo Hname.
  unfold get_instance_code, bind, app_configer_base_info_appname, lift,
    agent_model_attr, optional_dict_get.
  rewrite Ham, Hinfo. simpl. by rewrite Hname.
Qed.

(** X11: on an agent that was never initialised, or whose model has no
    [info], [get_instance_code] raises an [AttributeError]. *)
Theorem get_instance_code_unconfigured self w :
  agent_model self = None ∨ (∃ am, agent_model self = Some am ∧ info am = None) →
  ∃ msg, get_instance_code AGENT repr_builtin self w
         = (Raises (Raise AttributeError msg), w).
Proof.
  unfold get_instance_code, bind, app_configer_base_info_appname, lift,
    agent_model_attr, optional_dict_get.
  intros [-> | (am & -> & ->)]; simpl; by eexists.
Qed.

(** *** The tool adapter, at the edges *)

(** X12: what [call_kwargs] hands to [run] when the call is accepted: the
    parsed mapping, the [callbacks] argument under the key [callbacks], and
    the extra keyword arguments, each key given once and none of them
    [self]. *)
Theorem call_kwargs_accepts parsed callbacks (kwargs kw : gmap string pyval) :
  call_kwargs call_error_text parsed callbacks kwargs = Returns kw →
  ∃ d, parsed = PDict d ∧
       d !! "callbacks" = None ∧
       kwargs !! "callbacks" = None ∧
       d !! "self" = None ∧
       kwargs !! "self" = None ∧
       d ##ₘ kwargs ∧
       kw !! "callbacks" = Some callbacks ∧
       (∀ key v, d !! key = Some v → kw !! key = Some v) ∧
       (∀ key v, kwargs !! key = Some v → kw !! key = Some v) ∧
       dom kw = dom d ∪ {[ "callbacks" ]} ∪ dom kwargs.
Proof.
  unfold call_kwargs. destruct parsed as [| | | | | |d]; try discriminate.
  destruct (decide ("callbacks" ∈ dom d)) as [|Hcb]; [discriminate|].
  destruct (decide (<["callbacks":=callbacks]> d ##ₘ kwargs)) as [Hdisj|]; [|discriminate].
  destruct (decide ("self" ∈ dom (<["callbacks":=callbacks]> d ∪ kwargs))) as [|Hself];
    [discriminate|].
  intros [= <-]. apply not_elem_of_dom in Hcb.
  apply not_elem_of_dom, lookup_union_None in Hself as [Hself1 Hself2].
  rewrite lookup_insert_ne in Hself1 by done.
  apply map_disjoint_insert_l in Hdisj as [Hkw Hdisj].
  exists d. repeat split; try done.
  - apply lookup_union_Some_l, lookup_insert_eq.
  - intros key v Hv. apply lookup_union_Some_l.
    rewrite lookup_insert_ne; [done|]. intros <-. congruence.
  - intros key v Hv. rewrite lookup_union_r; [done|].
    rewrite lookup_insert_ne; [by eapply map_disjoint_Some_r|].
    intros <-. congruence.
  - rewrite dom_union_L, dom_insert_L. set_solve_closed.
Qed.

(** X13: an input that parses to something other than a JSON object
    makes [langchain_run] raise a [TypeError]: nothing is logged and [run]
    is not entered. *)
Theorem langchain_run_not_mapping self input callbacks (kwargs : gmap string pyval) w parsed :
  parse_json_markdown input = Returns parsed →
  (∀ d, parsed ≠ PDict d) →
  ∃ msg,
    langchain_run get_instance_obj parse_json_markdown call_error_text self input callbacks kwargs w
    = (Raises (Raise TypeError msg), w).
Proof.
  intros Hparse Hnd. unfold langchain_run, bind, lift. rewrite Hparse.
  destruct parsed; simpl; try by eexists. by destruct (Hnd d).
Qed.

(** X14: a parsed object that has a key [callbacks] of its own clashes
    with the [callbacks] argument: [langchain_run] raises the [TypeError]
    of a keyword given twice, and [run] is not entered. *)
Theorem langchain_run_callbacks_clash self input callbacks (kwargs : gmap string pyval) w d :
  parse_json_markdown input = Returns (PDict d) →
  is_Some (d !! "callbacks") →
  langchain_run get_instance_obj parse_json_markdown call_error_text self input
    callbacks kwargs w
  = (Raises (Raise TypeError (call_error_text RepeatedCallbacks)), w).
Proof.
  intros Hparse Hcb. unfold langchain_run, bind, lift, call_kwargs. rewrite Hparse.
  rewrite decide_True; [done|]. by apply elem_of_dom.
Qed.

(** X24: a parsed object that has a key [self] is refused as well: the
    bound method has filled that parameter, so the call raises a
    [TypeError] and [run] is not entered. *)
Theorem langchain_run_self_clash self input callbacks (kwargs : gmap string pyval) w d :
  parse_json_markdown input = Returns (PDict d) →
  is_Some (d !! "self") →
  ∃ msg,
    langchain_run get_instance_obj parse_json_markdown call_error_text self input
      callbacks kwargs w
    = (Raises (Raise TypeError msg), w).
Proof.
  intros Hparse [x Hself]. unfold langchain_run, bind, lift, call_kwargs. rewrite Hparse.
  destruct (decide ("callbacks" ∈ dom d)); [by eexists|].
  destruct (decide (<["callbacks":=callbacks]> d ##ₘ kwargs)); [|by eexists].
  rewrite decide_True; [by eexists|].
  apply elem_of_dom. exists x. apply lookup_union_Some_l.
  rewrite lookup_insert_ne; [done|]. discriminate.
Qed.

(** X15: only the parse failure is turned into a reply.  When the input
    parses but lacks a required key, [langchain_run] raises the input
    validation error like [run] does. *)
Theorem langchain_run_missing_input_key self input callbacks (kwargs : gmap string pyval)
    w parsed kw :
  parse_json_markdown input = Returns parsed →
  call_kwargs call_error_text parsed callbacks kwargs = Returns kw →
  (∃ key, key ∈ input_keys self ∧ kw !! key = None) →
  ∃ e, InputValidationError e ∧
       langchain_run get_instance_obj parse_json_markdown call_error_text self input
         callbacks kwargs w
       = (Raises e, w).
Proof.
  intros Hparse Hkw (k & Hk & Hnone).
  destruct (input_check_keys_missing (input_keys self) kw w)
    as (key & Hkey & Hmiss & Hrun).
  { exists k. split; [done|]. by apply not_elem_of_dom. }
  eexists. split; [by exists key|].
  unfold langchain_run. rewrite Hparse.
  rewrite (bind_returns _ _ w kw w) by (unfold lift; by rewrite Hkw).
  apply bind_raises. unfold run. by apply bind_raises.
Qed.

(** X16: an exception of the parser that is not an [Exception] (an
    interrupt, say) is not caught: it goes to the caller and nothing is
    logged. *)
Theorem langchain_run_base_exception self input callbacks (kwargs : gmap string pyval) w e :
  parse_json_markdown input = Raises e →
  isinstance_Exception e = false →
  langchain_run get_instance_obj parse_json_markdown call_error_text self input callbacks kwargs w
  = (Raises e, w).
Proof. intros Hparse Hexc. unfold langchain_run. by rewrite Hparse, Hexc. Qed.

(** X17: whatever the input, a normal return of [langchain_run] is the
    fixed reply or a mapping whose keys are exactly [output_keys()]. *)
Theorem langchain_run_returns_shape self input callbacks (kwargs : gmap string pyval) w v w' :
  langchain_run get_instance_obj parse_json_markdown call_error_text self input callbacks kwargs w
  = (Returns v, w') →
  v = PStr "Error , Your Action Input is not a valid JSON string" ∨
  ∃ result, v = PDict result ∧ dom result = list_to_set (output_keys self).
Proof.
  unfold langchain_run.
  destruct (parse_json_markdown input) as [parsed|e] eqn:Hparse.
  - intros H. right.
    apply bind_returns_inv in H as (kw & w1 & Hkw & H).
    apply bind_returns_inv in H as (oo & w2 & Hrun & H).
    apply bind_returns_inv in H as (result & w3 & Hloop & H).
    injection H as <- <-.
    destruct (run_returns_inv _ _ _ _ _ _ Hrun) as (_ & out & Hout & _).
    destruct oo as [x]. simpl in Hout. subst x.
    destruct (collect_output_spec (output_keys self) out ∅ w2)
      as (result' & Hloop' & Hdom & _).
    rewrite Hloop' in Hloop. injection Hloop as <- <-.
    exists result'. split; [done|]. rewrite Hdom, dom_empty_L. set_solve_closed.
  - destruct (isinstance_Exception e); [|discriminate].
    unfold bind, LOGGER_error, emit, ret. intros [= <- <-]. by left.
Qed.

End Further.

(** ** Properties of construction and of the tool factory *)

Lemma setdefault_fst key v (d : list (string * string)) :
  key ∉ d.*1 → (setdefault key v d).*1 = (d.*1 ++ [key])%list.
Proof.
  intros Hnot. unfold setdefault. rewrite decide_False by done.
  by rewrite fmap_app.
Qed.

Lemma format_dict_loop_spec keys (acc : list (string * string)) :
  NoDup acc.*1 →
  NoDup (format_dict_loop keys acc).*1 ∧
  (∀ k, k ∈ (format_dict_loop keys acc).*1 ↔ k ∈ acc.*1 ∨ k ∈ keys) ∧
  (∀ k v, (k, v) ∈ format_dict_loop keys acc → (k, v) ∈ acc ∨ v = "input val").
Proof.
  revert acc. induction keys as [|key keys IH]; intros acc Hnd; simpl.
  - split; [done|]. split; [|by left].
    intros k. split; [by left|]. intros [?|Hk]; [done|]. by apply elem_of_nil in Hk.
  - assert (Hnd' : NoDup (setdefault key "input val" acc).*1).
    { unfold setdefault. destruct (decide (key ∈ acc.*1)) as [|Hnot]; [done|].
      rewrite fmap_app. apply NoDup_app. split; [done|]. split.
      - intros k Hk Hk'. apply list_elem_of_singleton in Hk'. by subst.
      - apply NoDup_singleton. }
    destruct (IH _ Hnd') as (Hr & Hmem & Hval).
    split; [done|]. split.
    + intros k. rewrite Hmem. unfold setdefault.
      destruct (decide (key ∈ acc.*1)) as [Hin|Hnot].
      * rewrite elem_of_cons. split; [tauto|]. intros [?|[->|?]]; tauto.
      * rewrite fmap_app, elem_of_app, elem_of_cons. simpl.
        rewrite list_elem_of_singleton. tauto.
    + intros k v Hkv. destruct (Hval k v Hkv) as [Hin|?]; [|by right].
      unfold setdefault in Hin. destruct (decide (key ∈ acc.*1)); [by left|].
      apply elem_of_app in Hin as [?|Hin]; [by left|].
      apply list_elem_of_singleton in Hin. injection Hin as -> ->. by right.
Qed.

Lemma format_dict_loop_distinct keys (acc : list (string * string)) :
  NoDup (acc.*1 ++ keys)%list →
  (format_dict_loop keys acc).*1 = (acc.*1 ++ keys)%list.
Proof.
  revert acc. induction keys as [|key keys IH]; intros acc Hnd; simpl.
  - by rewrite app_nil_r.
  - assert (Hnot : key ∉ acc.*1).
    { apply NoDup_app in Hnd as (_ & Hdisj & _). intros Hin.
      apply (Hdisj key Hin). by left. }
    rewrite IH; rewrite setdefault_fst by done.
    + by rewrite <- app_assoc.
    + by rewrite <- app_assoc.
Qed.

Section ConstructionProperties.

Set Default Proof Using "Type".

Variable AGENT : string.
Variable get_instance_obj : pyval → M (option Planner).
Variable parse_json_markdown : string → outcome pyval.
Variable call_error_text : call_error → string.
Variable repr_builtin : pyval → string.
Variable load : AgentConfiger → M (option AgentConfiger).
Variable json_dumps : list (string * string) → string.
Variable tool : Type.
Variable Tool : pyval → (string → pyval → gmap string pyval → M pyval) → string → M tool.

(** X18: the format shown to the tool's user lists every input key once,
    each with the value "input val"; when [input_keys()] has no
    repetition the keys come in the declared order. *)
Theorem format_dict_keys (keys : list string) :
  NoDup (format_dict_loop keys []).*1 ∧
  (∀ k, k ∈ (format_dict_loop keys []).*1 ↔ k ∈ keys) ∧
  (∀ k v, (k, v) ∈ format_dict_loop keys [] → v = "input val") ∧
  (NoDup keys → (format_dict_loop keys []).*1 = keys).
Proof.
  destruct (format_dict_loop_spec keys []) as (Hnd & Hmem & Hval); [constructor|].
  split; [done|]. split; [|split].
  - intros k. rewrite Hmem. split; [|by right].
    intros [Hk|?]; [|done]. by apply elem_of_nil in Hk.
  - intros k v Hkv. destruct (Hval k v Hkv) as [Hin|?]; [|done].
    by apply elem_of_nil in Hin.
  - intros Hkeys. by apply (format_dict_loop_distinct keys []).
Qed.

(** X19: an agent initialised from a configuration whose [info] holds a
    name reports [appname.agent.name] with that name, whatever model it
    held before. *)
Theorem initialize_then_instance_code self component_configer w c w1 d name :
  load component_configer w = (Returns (Some c), w1) →
  cfg_info c = Some d →
  d !! "name" = Some (PStr name) →
  (agent <- initialize_by_component_configer load self component_configer ;;
   get_instance_code AGENT repr_builtin agent) w
  = (Returns (base_info_appname w1 ++ "." ++ lower AGENT ++ "." ++ name), w1).
Proof.
  intros Hload Hinfo Hname.
  unfold initialize_by_component_configer, get_instance_code, bind, lift,
    app_configer_base_info_appname, agent_model_attr, optional_dict_get.
  rewrite Hload. simpl. rewrite Hinfo. simpl. by rewrite Hname.
Qed.

(** X20: initialising again replaces the model: after two
    initialisations the agent is the one the second alone gives. *)
Theorem initialize_twice self first second w c w1 :
  load first w = (Returns (Some c), w1) →
  (agent <- initialize_by_component_configer load self first ;;
   initialize_by_component_configer load agent second) w
  = initialize_by_component_configer load self second w1.
Proof.
  intros Hload. unfold initialize_by_component_configer, bind.
  rewrite Hload. simpl. by destruct (load second w1) as [[[?|]|?] ?].
Qed.

(** X21: an agent initialised from a configuration runs the planner its
    [plan] names: [execute] asks the registry for
    [plan['planner']['name']] and invokes what it gets with the model
    built from that configuration. *)
Theorem initialize_then_execute self component_configer input_object l w c w1 p cfg
    planner w2 :
  load component_configer w = (Returns (Some c), w1) →
  cfg_plan c = Some p →
  p !! "planner" = Some (PDict cfg) →
  get_instance_obj (default PNone (cfg !! "name"))
    (World (heap w1) (now w1) (base_info_appname w1)
           (trace w1 ++ [EvGetPlanner (default PNone (cfg !! "name"))]))
  = (Returns (Some planner), w2) →
  (agent <- initialize_by_component_configer load self component_configer ;;
   execute get_instance_obj agent input_object l) w
  = invoke planner
      (Some (mkAgentModel (cfg_info c) (cfg_profile c) (cfg_plan c)
                          (cfg_memory c) (cfg_action c)))
      l input_object
      (World (heap w2) (now w2) (base_info_appname w2) (trace w2 ++ [EvInvoke l])).
Proof.
  intros Hload Hplan Hcfg Hreg.
  unfold initialize_by_component_configer, execute, bind, lift, emit,
    agent_model_attr, optional_dict_get.
  rewrite Hload. simpl. rewrite Hplan. simpl. rewrite Hcfg. simpl. by rewrite Hreg.
Qed.

(** X22: [as_langchain_tool] needs a description that is a string: when
    [info] holds none (or holds something else), adding the usage text to
    it raises a [TypeError], the world is as it was and the tool
    constructor is never called. *)
Theorem as_langchain_tool_no_description self w am d :
  agent_model self = Some am →
  info am = Some d →
  (∀ s, d !! "description" ≠ Some (PStr s)) →
  ∃ msg,
    as_langchain_tool get_instance_obj parse_json_markdown call_error_text repr_builtin json_dumps
      tool Tool self w
    = (Raises (Raise TypeError msg), w).
Proof.
  intros Ham Hinfo Hdesc.
  unfold as_langchain_tool, bind, lift, agent_model_attr, optional_dict_get.
  rewrite Ham, Hinfo. simpl.
  destruct (d !! "description") as [v|] eqn:Hv; simpl; [|by eexists].
  destruct v; simpl; try by eexists. by destruct (Hdesc s).
Qed.

(** With a string description, [as_langchain_tool] builds the tool
    from the name under [info['name']] ([None] when there is none), the
    agent's [langchain_run] as the function, and the description followed
    by the usage text. *)
Theorem as_langchain_tool_builds self w am d description :
  agent_model self = Some am →
  info am = Some d →
  d !! "description" = Some (PStr description) →
  as_langchain_tool get_instance_obj parse_json_markdown call_error_text repr_builtin json_dumps
    tool Tool self w
  = Tool (default PNone (d !! "name"))
         (langchain_run get_instance_obj parse_json_markdown call_error_text self)
         (description
            ++ args_description repr_builtin self
                 (json_dumps (format_dict_loop (input_keys self) [])))
         w.
Proof.
  intros Ham Hinfo Hdesc.
  unfold as_langchain_tool, bind, lift, agent_model_attr, optional_dict_get.
  rewrite Ham, Hinfo. simpl. rewrite Hdesc. simpl.
  by destruct (Tool _ _ _ w) as [[?|?] ?].
Qed.

End ConstructionProperties.

(** ** The scenario, worked *)

Module Scenario.
Import Example.

Definition hi : gmap string pyval := {[ "query" := PStr "hi" ]}.

Lemma hi_has_input_keys (self : Agent) :
  input_keys self = ["query"] → ∀ key, key ∈ input_keys self → key ∈ dom hi.
Proof.
  intros -> key Hkey. apply list_elem_of_singleton in Hkey as ->.
  apply elem_of_dom. by eexists.
Qed.

(** [run(query="hi")] against the stub planner answers "hello". *)
Example run_query_hi :
  ∃ oo w', run stub_registry qa_agent hi w0 = (Returns oo, w') ∧
           OutputObject_get_data oo "answer" = Returns (PStr "hello") ∧
           trace w' = [EvGetPlanner (PStr "stub_planner"); EvInvoke 1%positive].
Proof. eexists _, _. split; [vm_compute; reflexivity|]. by vm_compute. Qed.

Lemma qa_agent_deterministic : deterministic_agent qa_agent.
Proof.
  split; [|done].
  intros input_object l1 l2 w1 w2 Hagree. unfold alike, agree in *. simpl.
  split; [done|]. by rewrite !lookup_alter_eq, Hagree.
Qed.

Lemma stub_registry_deterministic : deterministic_registry stub_registry.
Proof.
  intros name l1 l2 w1 w2 Hagree. unfold alike. simpl. split; [|done].
  destruct name; try constructor.
  destruct (String.eqb s "stub_planner"); constructor.
  by intros am input_object l1' l2' w1' w2' _.
Qed.

(** *** The theorems at the scenario *)

Lemma run_missing_input_key_witness :
  ∃ key e,
    key ∈ input_keys qa_agent ∧
    ({[ "question" := PStr "hi" ]} : gmap string pyval) !! key = None ∧
    e = Raise Exception ("Input must have key: " ++ key ++ ".") ∧
    InputValidationError e ∧
    run stub_registry qa_agent {[ "question" := PStr "hi" ]} w0 = (Raises e, w0) ∧
    trace (run stub_registry qa_agent {[ "question" := PStr "hi" ]} w0).2 = trace w0.
Proof.
  apply (run_missing_input_key stub_registry qa_agent {[ "question" := PStr "hi" ]} w0).
  exists "query". split; [apply list_elem_of_here | reflexivity].
Defined.

Lemma run_output_check_witness :
  ∃ e w3, OutputValidationError e ∧
          run stub_registry strict_agent hi w0 = (Raises e, w3).
Proof.
  edestruct (run_output_check stub_registry strict_agent hi w0) as [Hbad _].
  - exact (hi_has_input_keys strict_agent eq_refl).
  - vm_compute; reflexivity.
  - vm_compute; reflexivity.
  - vm_compute; reflexivity.
  - destruct Hbad as (e & He & Hrun).
    + right. exists {[ "answer" := PStr "hello" ]}, "sources".
      split; [vm_compute; reflexivity|].
      split; [apply list_elem_of_further, list_elem_of_here | reflexivity].
    + exists e. eexists. split; [exact He | exact Hrun].
Defined.

(** A call that supplies a history, a background that is falsy, and no
    image. *)
Definition chatty : gmap string pyval :=
  {[ "query" := PStr "hi";
     "chat_history" := PList [PStr "earlier"];
     "background" := PInt 0 ]}.

Lemma pre_parse_input_fields_witness :
  ∃ w',
    pre_parse_input qa_agent (mkInputObject chatty) w0 = (Returns 1%positive, w') ∧
    binding w' 1%positive "chat_history" = Some (PList [PStr "earlier"]) ∧
    binding w' 1%positive "background" = Some (PStr "") ∧
    binding w' 1%positive "image_urls" = Some (PList []) ∧
    binding w' 1%positive "date" = Some (PStr "2024-03-12") ∧
    parse_Ymd "2024-03-12" = Some (Date 2024 3 12).
Proof.
  edestruct (pre_parse_input_fields qa_agent (mkInputObject chatty) w0)
    as (Hrun & Hfields & Hdate & Hparse).
  - vm_compute; reflexivity.
  - intros key Hkey.
    repeat (apply elem_of_cons in Hkey as [-> | Hkey]; [vm_compute; reflexivity|]).
    by apply elem_of_nil in Hkey.
  - vm_compute. repeat split; discriminate.
  - eexists. split; [exact Hrun|].
    split; [exact (Hfields "chat_history" (or_introl eq_refl))|].
    split; [exact (Hfields "background" (or_intror (or_introl eq_refl)))|].
    split; [exact (Hfields "image_urls" (or_intror (or_intror eq_refl)))|].
    split; [exact Hdate | exact Hparse].
Defined.

(** C3 as stated fails: [chat_history] is present in the input object,
    bound to the empty list, yet the pre-parsed mapping binds it to the
    empty string. *)
Lemma pre_parse_input_fields_counterexample :
  ∃ l w' d,
    pre_parse_input qa_agent (mkInputObject {[ "chat_history" := PList [] ]}) w0
    = (Returns l, w') ∧
    heap w' !! l = Some d ∧
    in_params (mkInputObject {[ "chat_history" := PList [] ]}) !! "chat_history"
    = Some (PList []) ∧
    d !! "chat_history" = Some (PStr "") ∧
    d !! "chat_history" ≠ Some (PList []).
Proof.
  eexists _, _, _. split; [vm_compute; reflexivity|].
  split; [vm_compute; reflexivity|]. split; [reflexivity|].
  split; [vm_compute; reflexivity|]. vm_compute. discriminate.
Qed.

Lemma run_output_has_keys_witness :
  ∃ oo w', run stub_registry qa_agent hi w0 = (Returns oo, w') ∧
           ∃ d, out_params oo = PDict d ∧
                ∀ key, key ∈ output_keys qa_agent → is_Some (d !! key).
Proof.
  eexists _, _. split; [vm_compute; reflexivity|].
  eapply (run_output_has_keys stub_registry qa_agent hi w0).
  vm_compute; reflexivity.
Defined.

Lemma langchain_run_parse_failure_witness :
  langchain_run stub_registry stub_parse_json_markdown stub_call_error_text qa_agent
    "hello" PNone ∅ w0
  = (Returns (PStr "Error , Your Action Input is not a valid JSON string"),
     World ∅ (Date 2024 3 12) "demo_app"
       [EvLoggerError
          "langchain run parse_json_markdown error,input(parse_result) error(Expecting value: line 1 column 1 (char 0))"]).
Proof.
  exact (langchain_run_parse_failure stub_registry stub_parse_json_markdown
           stub_call_error_text qa_agent "hello" PNone ∅ w0 _ eq_refl eq_refl).
Defined.

Lemma langchain_run_projects_output_witness :
  ∃ result w',
    langchain_run stub_registry stub_parse_json_markdown stub_call_error_text qa_agent
      query_hi PNone ∅ w0
    = (Returns (PDict result), w') ∧
    dom result = list_to_set (output_keys qa_agent) ∧
    result !! "answer" = Some (PStr "hello").
Proof.
  edestruct (langchain_run_projects_output stub_registry stub_parse_json_markdown
               stub_call_error_text qa_agent query_hi PNone ∅ w0)
    as (_ & result & out & Hrun & Hout & Hdom & Hkeys).
  - vm_compute; reflexivity.
  - vm_compute; reflexivity.
  - vm_compute; reflexivity.
  - exists result. eexists. split; [exact Hrun|]. split; [exact Hdom|].
    destruct (Hkeys "answer" (list_elem_of_here _ _)) as [_ ->].
    injection Hout as <-. vm_compute; reflexivity.
Defined.

(** A second call, made in the world the first one left behind. *)
Lemma run_deterministic_witness :
  (run stub_registry qa_agent hi w0).1
  = (run stub_registry qa_agent hi (run stub_registry qa_agent hi w0).2).1.
Proof.
  apply (run_deterministic stub_registry qa_agent hi w0
           (run stub_registry qa_agent hi w0).2).
  - exact qa_agent_deterministic.
  - exact stub_registry_deterministic.
  - vm_compute; reflexivity.
Defined.

Lemma get_instance_code_format_witness :
  get_instance_code "AGENT" stub_repr qa_agent w0
  = (Returns "demo_app.agent.qa_agent", w0).
Proof.
  exact (get_instance_code_format "AGENT" stub_repr qa_agent w0 qa_model _ "qa_agent"
           eq_refl eq_refl eq_refl).
Defined.

Lemma pre_parse_input_falsy_default_witness :
  ∃ w',
    pre_parse_input qa_agent (mkInputObject {[ "chat_history" := PList [] ]}) w0
    = (Returns 1%positive, w') ∧
    binding w' 1%positive "chat_history" = Some (PStr "").
Proof.
  edestruct (pre_parse_input_falsy_default qa_agent
               (mkInputObject {[ "chat_history" := PList [] ]}) w0 "chat_history"
               (PList []))
    as (_ & _ & Hreturned).
  - left. reflexivity.
  - reflexivity.
  - reflexivity.
  - edestruct Hreturned as [Hrun Hbound].
    + vm_compute; reflexivity.
    + vm_compute; reflexivity.
    + eexists. split; [exact Hrun | exact Hbound].
Defined.

Lemma pre_parse_input_ignores_returned_witness :
  ∃ w2 d,
    pre_parse_input fresh_agent (mkInputObject hi) w0
    = (Returns (fresh (dom (heap w0))), w2) ∧
    heap w2 !! fresh (dom (heap w0)) = Some d ∧
    dom d = {[ "chat_history"; "background"; "image_urls"; "date" ]} ∧
    d !! "input" = None.
Proof.
  edestruct (pre_parse_input_ignores_returned stub_registry fresh_agent hi w0)
    as [Hpre Hrest].
  - vm_compute; reflexivity.
  - destruct Hrest as (d & Hd & Hdom & _); [vm_compute; reflexivity|].
    eexists _, d. split; [exact Hpre|]. split; [exact Hd|]. split; [exact Hdom|].
    apply not_elem_of_dom. rewrite Hdom. set_solver.
Defined.

End Scenario.

(** X23: the date text is ten characters long, and two days with the same
    text are the same day. *)
Theorem strftime_Ymd_injective d1 d2 :
  valid_date d1 → valid_date d2 →
  String.length (strftime_Ymd d1) = 10 ∧
  (strftime_Ymd d1 = strftime_Ymd d2 → d1 = d2).
Proof.
  intros H1 H2. split; [done|]. intros Heq.
  apply strftime_Ymd_parse in H1, H2. rewrite Heq in H1. congruence.
Qed.

(** ** The edges, worked *)

Module Edge.
Import Example.

(** An agent that was never initialised. *)
Definition blank_agent : Agent :=
  mkAgent None ["query"] ["answer"] qa_parse_input qa_parse_result.

(** An agent whose [info] has neither name nor description, and whose plan
    names a planner the registry does not know. *)
Definition anonymous_model : AgentModel :=
  mkAgentModel (Some ∅) None
    (Some {[ "planner" := PDict {[ "name" := PStr "lost_planner" ]} ]}) None None.

Definition anonymous_agent : Agent :=
  mkAgent (Some anonymous_model) ["query"] ["answer"] qa_parse_input qa_parse_result.

(** [raise KeyError('query')] in [parse_input]. *)
Definition failing_parse_input (input_object : InputObject) (agent_input : loc) : M returned :=
  raise (Raise (OtherException "KeyError") "'query'").

Definition failing_agent : Agent :=
  mkAgent (Some qa_model) ["query"] ["answer"] failing_parse_input qa_parse_result.

(** An agent with three required inputs. *)
Definition triple_agent : Agent :=
  mkAgent (Some qa_model) ["topic"; "query"; "style"] ["answer"]
          qa_parse_input qa_parse_result.

(** A parser with a fixed outcome. *)
Definition const_parser (o : outcome pyval) (input : string) : outcome pyval := o.

Definition qa_configer : AgentConfiger :=
  mkAgentConfiger (info qa_model) None (plan qa_model) None None.

(** A configuration that is already loaded. *)
Definition stub_load (c : AgentConfiger) : M (option AgentConfiger) := ret (Some c).

(** A tool that keeps its name and description. *)
Definition stub_Tool (name : pyval)
    (func : string → pyval → gmap string pyval → M pyval) (description : string)
    : M (pyval * string) :=
  ret (name, description).

Definition stub_json_dumps (d : list (string * string)) : string := "".

(** A world that already holds an object. *)
Definition w1 : world :=
  World {[ 1%positive := {[ "input" := PStr "earlier" ]} ]} (Date 2024 3 12) "demo_app" [].

Lemma input_check_first_missing_witness :
  input_check triple_agent {[ "topic" := PStr "x" ]} w0
  = (Raises (Raise Exception "Input must have key: query."), w0).
Proof.
  apply (input_check_first_missing triple_agent {[ "topic" := PStr "x" ]} w0
           ["topic"] "query" ["style"]).
  - reflexivity.
  - intros k Hk. apply list_elem_of_singleton in Hk as ->. by eexists.
  - reflexivity.
Defined.

Lemma output_check_first_missing_witness :
  output_check strict_agent (PDict {[ "answer" := PStr "hello" ]}) w0
  = (Raises (Raise Exception "Output must have key: sources."), w0).
Proof.
  apply (output_check_first_missing strict_agent {[ "answer" := PStr "hello" ]} w0
           ["answer"] "sources" []).
  - reflexivity.
  - intros k Hk. apply list_elem_of_singleton in Hk as ->. by eexists.
  - reflexivity.
Defined.

Lemma run_parse_input_raises_witness :
  ∃ e w', run stub_registry failing_agent Scenario.hi w0 = (Raises e, w') ∧
          exn_cls e = OtherException "KeyError" ∧ trace w' = [].
Proof.
  edestruct (run_parse_input_raises stub_registry failing_agent Scenario.hi w0)
    as [Hrun _].
  - intros key Hkey. apply list_elem_of_singleton in Hkey as ->. by eexists.
  - vm_compute; reflexivity.
  - eexists _, _. split; [exact Hrun|]. split; reflexivity.
Defined.

Lemma pre_parse_input_fresh_witness :
  ∃ l w', pre_parse_input qa_agent (mkInputObject Scenario.hi) w1 = (Returns l, w') ∧
          (l ∉ dom (heap w1)) ∧
          ∃ l2 w2, pre_parse_input qa_agent (mkInputObject Scenario.hi) w' = (Returns l2, w2) ∧
                   l2 ≠ l.
Proof.
  edestruct (pre_parse_input_fresh qa_agent (mkInputObject Scenario.hi) w1)
    as [Hfresh Hlater].
  - vm_compute; reflexivity.
  - eexists _, _. split; [vm_compute; reflexivity|]. split; [exact Hfresh|].
    eexists _, _. split; [vm_compute; reflexivity|].
    eapply (Hlater (mkInputObject Scenario.hi)); [|vm_compute; reflexivity].
    apply elem_of_dom. vm_compute. by eexists.
Defined.

Lemma execute_unconfigured_witness :
  ∃ msg, execute stub_registry blank_agent (mkInputObject Scenario.hi) 1%positive w0
         = (Raises (Raise AttributeError msg), w0).
Proof.
  apply (execute_unconfigured stub_registry blank_agent (mkInputObject Scenario.hi)
           1%positive w0).
  left. reflexivity.
Defined.

Lemma execute_unknown_planner_witness :
  execute stub_registry anonymous_agent (mkInputObject Scenario.hi) 1%positive w0
  = (Raises (Raise AttributeError "'NoneType' object has no attribute 'invoke'"),
     World ∅ (Date 2024 3 12) "demo_app" [EvGetPlanner (PStr "lost_planner")]).
Proof.
  exact (execute_unknown_planner stub_registry anonymous_agent (mkInputObject Scenario.hi)
           1%positive w0 anonymous_model _ _ _ eq_refl eq_refl eq_refl eq_refl).
Defined.

Lemma execute_invokes_named_planner_witness :
  execute stub_registry qa_agent (mkInputObject Scenario.hi) 1%positive w0
  = (Returns (PDict {[ "answer" := PStr "hello" ]}),
     World ∅ (Date 2024 3 12) "demo_app"
       [EvGetPlanner (PStr "stub_planner"); EvInvoke 1%positive]).
Proof.
  exact (execute_invokes_named_planner stub_registry qa_agent (mkInputObject Scenario.hi)
           1%positive w0 qa_model _ _ stub_planner _ eq_refl eq_refl eq_refl eq_refl).
Defined.

Lemma get_instance_code_missing_name_witness :
  get_instance_code "AGENT" stub_repr anonymous_agent w0
  = (Returns "demo_app.agent.None", w0).
Proof.
  exact (get_instance_code_missing_name "AGENT" stub_repr anonymous_agent w0
           anonymous_model ∅ eq_refl eq_refl eq_refl).
Defined.

Lemma get_instance_code_unconfigured_witness :
  ∃ msg, get_instance_code "AGENT" stub_repr blank_agent w0
         = (Raises (Raise AttributeError msg), w0).
Proof.
  apply (get_instance_code_unconfigured "AGENT" stub_repr blank_agent w0).
  left. reflexivity.
Defined.

Lemma call_kwargs_accepts_witness :
  ∃ kw, call_kwargs stub_call_error_text (PDict Scenario.hi) (PStr "hooks")
          {[ "trace_id" := PInt 7 ]} = Returns kw ∧
        kw !! "callbacks" = Some (PStr "hooks") ∧
        kw !! "query" = Some (PStr "hi") ∧
        kw !! "trace_id" = Some (PInt 7).
Proof.
  assert (H : ∃ kw, call_kwargs stub_call_error_text (PDict Scenario.hi) (PStr "hooks")
                      {[ "trace_id" := PInt 7 ]} = Returns kw).
  { eexists. vm_compute. reflexivity. }
  destruct H as [kw H]. exists kw. split; [exact H|].
  destruct (call_kwargs_accepts _ _ _ _ _ H)
    as (d & Hd & _ & _ & _ & _ & _ & Hcb & Hparsed & Hextra & _).
  injection Hd as <-.
  split; [exact Hcb|]. split; [apply Hparsed | apply Hextra]; vm_compute; reflexivity.
Defined.

Lemma langchain_run_not_mapping_witness :
  ∃ msg,
    langchain_run stub_registry (const_parser (Returns (PList [PStr "hi"])))
      stub_call_error_text qa_agent
      "[]" PNone ∅ w0
    = (Raises (Raise TypeError msg), w0).
Proof.
  apply (langchain_run_not_mapping stub_registry (const_parser (Returns (PList [PStr "hi"])))
           stub_call_error_text qa_agent "[]" PNone ∅ w0 (PList [PStr "hi"])).
  - reflexivity.
  - intros d. discriminate.
Defined.

Lemma langchain_run_callbacks_clash_witness :
  langchain_run stub_registry
    (const_parser (Returns (PDict {[ "query" := PStr "hi"; "callbacks" := PNone ]})))
    stub_call_error_text qa_agent "{}" PNone ∅ w0
  = (Raises (Raise TypeError (stub_call_error_text RepeatedCallbacks)), w0).
Proof.
  apply (langchain_run_callbacks_clash stub_registry
           (const_parser (Returns (PDict {[ "query" := PStr "hi"; "callbacks" := PNone ]})))
           stub_call_error_text qa_agent "{}" PNone ∅ w0
           {[ "query" := PStr "hi"; "callbacks" := PNone ]}).
  - reflexivity.
  - by eexists.
Defined.

Lemma langchain_run_self_clash_witness :
  ∃ msg,
    langchain_run stub_registry
      (const_parser (Returns (PDict {[ "query" := PStr "hi"; "self" := PInt 1 ]})))
      stub_call_error_text qa_agent "{}" PNone ∅ w0
    = (Raises (Raise TypeError msg), w0).
Proof.
  apply (langchain_run_self_clash stub_registry
           (const_parser (Returns (PDict {[ "query" := PStr "hi"; "self" := PInt 1 ]})))
           stub_call_error_text qa_agent "{}" PNone ∅ w0
           {[ "query" := PStr "hi"; "self" := PInt 1 ]}).
  - reflexivity.
  - by eexists.
Defined.

Lemma langchain_run_missing_input_key_witness :
  ∃ e, InputValidationError e ∧
       langchain_run stub_registry
         (const_parser (Returns (PDict {[ "question" := PStr "hi" ]})))
         stub_call_error_text qa_agent "{}" PNone ∅ w0
       = (Raises e, w0).
Proof.
  eapply (langchain_run_missing_input_key stub_registry
            (const_parser (Returns (PDict {[ "question" := PStr "hi" ]})))
            stub_call_error_text qa_agent "{}" PNone ∅ w0).
  - reflexivity.
  - vm_compute; reflexivity.
  - exists "query". split; [apply list_elem_of_here | vm_compute; reflexivity].
Defined.

Lemma langchain_run_base_exception_witness :
  langchain_run stub_registry
    (const_parser (Raises (Raise (NonException "KeyboardInterrupt") "")))
    stub_call_error_text qa_agent "{}" PNone ∅ w0
  = (Raises (Raise (NonException "KeyboardInterrupt") ""), w0).
Proof.
  exact (langchain_run_base_exception stub_registry
           (const_parser (Raises (Raise (NonException "KeyboardInterrupt") "")))
           stub_call_error_text qa_agent "{}" PNone ∅ w0 _ eq_refl eq_refl).
Defined.

Lemma langchain_run_returns_shape_witness :
  ∃ v w', langchain_run stub_registry stub_parse_json_markdown stub_call_error_text qa_agent
            query_hi PNone ∅ w0
          = (Returns v, w') ∧
          (v = PStr "Error , Your Action Input is not a valid JSON string" ∨
           ∃ result, v = PDict result ∧ dom result = list_to_set (output_keys qa_agent)).
Proof.
  eexists _, _. split; [vm_compute; reflexivity|].
  eapply (langchain_run_returns_shape stub_registry stub_parse_json_markdown
           stub_call_error_text qa_agent
            query_hi PNone ∅ w0).
  vm_compute; reflexivity.
Defined.

Lemma initialize_then_instance_code_witness :
  (agent <- initialize_by_component_configer stub_load blank_agent qa_configer ;;
   get_instance_code "AGENT" stub_repr agent) w0
  = (Returns "demo_app.agent.qa_agent", w0).
Proof.
  exact (initialize_then_instance_code "AGENT" stub_repr stub_load blank_agent qa_configer
           w0 qa_configer w0 _ "qa_agent" eq_refl eq_refl eq_refl).
Defined.

Lemma initialize_twice_witness :
  (agent <- initialize_by_component_configer stub_load blank_agent
              (mkAgentConfiger None None None None None) ;;
   initialize_by_component_configer stub_load agent qa_configer) w0
  = initialize_by_component_configer stub_load blank_agent qa_configer w0.
Proof.
  exact (initialize_twice stub_load blank_agent (mkAgentConfiger None None None None None)
           qa_configer w0 _ w0 eq_refl).
Defined.

Lemma initialize_then_execute_witness :
  (agent <- initialize_by_component_configer stub_load blank_agent qa_configer ;;
   execute stub_registry agent (mkInputObject Scenario.hi) 1%positive) w0
  = (Returns (PDict {[ "answer" := PStr "hello" ]}),
     World ∅ (Date 2024 3 12) "demo_app"
       [EvGetPlanner (PStr "stub_planner"); EvInvoke 1%positive]).
Proof.
  exact (initialize_then_execute stub_registry stub_load blank_agent qa_configer
           (mkInputObject Scenario.hi) 1%positive w0 qa_configer w0 _ _ stub_planner _
           eq_refl eq_refl eq_refl eq_refl).
Defined.

Lemma as_langchain_tool_no_description_witness :
  ∃ msg,
    as_langchain_tool stub_registry stub_parse_json_markdown stub_call_error_text stub_repr
      stub_json_dumps
      (pyval * string) stub_Tool anonymous_agent w0
    = (Raises (Raise TypeError msg), w0).
Proof.
  apply (as_langchain_tool_no_description stub_registry stub_parse_json_markdown
          stub_call_error_text stub_repr
           stub_json_dumps (pyval * string) stub_Tool anonymous_agent w0 anonymous_model ∅).
  - reflexivity.
  - reflexivity.
  - intros s. discriminate.
Defined.

Lemma as_langchain_tool_builds_witness :
  ∃ description,
    as_langchain_tool stub_registry stub_parse_json_markdown stub_call_error_text stub_repr
      stub_json_dumps
      (pyval * string) stub_Tool qa_agent w0
    = (Returns (PStr "qa_agent", description), w0).
Proof.
  eexists.
  rewrite (as_langchain_tool_builds stub_registry stub_parse_json_markdown
            stub_call_error_text stub_repr
             stub_json_dumps (pyval * string) stub_Tool qa_agent w0 qa_model _ "answers"
             eq_refl eq_refl eq_refl).
  reflexivity.
Defined.

Lemma strftime_Ymd_injective_witness :
  String.length (strftime_Ymd (Date 2024 3 12)) = 10 ∧
  (strftime_Ymd (Date 2024 3 12) = strftime_Ymd (Date 2024 3 12) →
   Date 2024 3 12 = Date 2024 3 12).
Proof.
  apply (strftime_Ymd_injective (Date 2024 3 12) (Date 2024 3 12));
    vm_compute; repeat split; discriminate.
Defined.

End Edge.
